(** * PaymentFlow API: validation, rate limiting, gateway dispatch and error handling

  A shallow embedding of the request pipeline of the payment API
  ([src/index.js], [src/routes/payments.js], [src/middleware/validation.js],
  [src/middleware/rateLimit.js], [src/middleware/errorHandler.js],
  [src/services/stripeService.js]) together with the properties the
  specification states about it.

  Conventions of the embedding:
  - a JavaScript string is a [string]; its characters stand for the code
    units below 256;
  - a JavaScript number that the program only uses as an integer is an
    [option Z], [None] being NaN; amounts are IEEE 754 doubles ([float]);
  - middleware is a function to a list of observable events (log lines,
    gateway calls, responses written) and a continuation flag;
  - the rate-limit stores are finite maps from the client address. *)

From Stdlib Require Import ZArith String Ascii List Bool Lia.
From Stdlib Require Import Floats.PrimFloat Floats.SpecFloat Floats.FloatOps.
From Stdlib Require Import Numbers.Cyclic.Int63.Uint63.
From stdpp Require Import gmap strings.
Import ListNotations.

Set Warnings "-register-all,-inexact-float".

Local Open Scope string_scope.
Local Open Scope list_scope.
Local Open Scope Z_scope.

(** ** The JavaScript values and built-ins the program uses *)

Module Js.

(** Integers with NaN: the result of [parseInt] and of arithmetic on it. *)
Definition jsint := option Z.

Definition NaN : jsint := None.

Definition add (a b : jsint) : jsint :=
  match a, b with
  | Some x, Some y => Some (x + y)
  | _, _ => None
  end.

Definition mul (a b : jsint) : jsint :=
  match a, b with
  | Some x, Some y => Some (x * y)
  | _, _ => None
  end.

Definition sub (a b : jsint) : jsint :=
  match a, b with
  | Some x, Some y => Some (x - y)
  | _, _ => None
  end.

(** [a % b]: the remainder has the sign of the dividend; NaN when an
    operand is NaN or the divisor is zero. *)
Definition rem (a b : jsint) : jsint :=
  match a, b with
  | Some x, Some y => if y =? 0 then None else Some (Z.rem x y)
  | _, _ => None
  end.

(** Comparisons: every comparison with NaN is false. *)
Definition lt (a b : jsint) : bool :=
  match a, b with
  | Some x, Some y => x <? y
  | _, _ => false
  end.

Definition gt (a b : jsint) : bool := lt b a.

Definition strict_eq (a b : jsint) : bool :=
  match a, b with
  | Some x, Some y => x =? y
  | _, _ => false
  end.

Definition code (c : ascii) : Z := Z.of_N (N_of_ascii c).

(** White space as [\s] and [trimStart] see it (tab, line feed, vertical
    tab, form feed, carriage return, space, no-break space). *)
Definition is_white_space (c : ascii) : bool :=
  let n := code c in
  ((9 <=? n) && (n <=? 13)) || (n =? 32) || (n =? 160).

Definition is_digit (c : ascii) : bool :=
  let n := code c in (48 <=? n) && (n <=? 57).

Definition digit_value (c : ascii) : jsint :=
  if is_digit c then Some (code c - 48) else None.

(** The value of [c] as a digit in the given radix, if it is one. *)
Definition radix_digit (radix : Z) (c : ascii) : option Z :=
  let n := code c in
  let v :=
    if (48 <=? n) && (n <=? 57) then Some (n - 48)
    else if (97 <=? n) && (n <=? 122) then Some (n - 87)
    else if (65 <=? n) && (n <=? 90) then Some (n - 55)
    else None in
  match v with
  | Some d => if d <? radix then Some d else None
  | None => None
  end.

Fixpoint trimStart (s : string) : string :=
  match s with
  | String c rest => if is_white_space c then trimStart rest else s
  | EmptyString => s
  end.

(** The longest prefix of radix digits, read as a number; [acc] is [None]
    until a digit has been seen. *)
Fixpoint parse_digits (radix : Z) (s : string) (acc : option Z) : option Z :=
  match s with
  | String c rest =>
      match radix_digit radix c with
      | Some d =>
          parse_digits radix rest
            (Some (radix * match acc with Some a => a | None => 0 end + d))
      | None => acc
      end
  | EmptyString => acc
  end.

Definition strip_hex_prefix (s : string) : option string :=
  match s with
  | String "0" (String "x" rest) => Some rest
  | String "0" (String "X" rest) => Some rest
  | _ => None
  end.

(** [parseInt(s, radix)]; [radix = None] is the call with one argument.
    The result is the exact integer: the program only compares it with
    two-digit numbers or hands it to the gateway. *)
Definition parseInt (s : string) (radix : option Z) : jsint :=
  let t := trimStart s in
  let '(negative, t) :=
    match t with
    | String "-" rest => (true, rest)
    | String "+" rest => (false, rest)
    | _ => (false, t)
    end in
  let '(r, t) :=
    match radix with
    | Some r => (r, if r =? 16 then
                      match strip_hex_prefix t with Some u => u | None => t end
                    else t)
    | None => match strip_hex_prefix t with
              | Some u => (16, u)
              | None => (10, t)
              end
    end in
  match parse_digits r t None with
  | Some n => Some (if negative then - n else n)
  | None => None
  end.

(** [s.charAt(i)] *)
Definition charAt (s : string) (i : nat) : string :=
  match String.get i s with
  | Some c => String c EmptyString
  | None => EmptyString
  end.

(** [s.split(sep)] for a one-character separator: [cur] holds the piece
    being read, reversed. *)
Fixpoint split_go (sep : ascii) (s : string) (cur : list ascii) : list string :=
  match s with
  | EmptyString => [string_of_list_ascii (rev cur)]
  | String c rest =>
      if Ascii.eqb c sep
      then string_of_list_ascii (rev cur) :: split_go sep rest []
      else split_go sep rest (c :: cur)
  end.

Definition split (sep : ascii) (s : string) : list string := split_go sep s [].

(** [parseInt] of an array element that may be missing: [parseInt(undefined)]
    reads the text "undefined" and is NaN. *)
Definition parseInt_opt (s : option string) (radix : option Z) : jsint :=
  match s with
  | Some t => parseInt t radix
  | None => parseInt "undefined" radix
  end.

Definition toLowerCase_char (c : ascii) : ascii :=
  let n := code c in
  if (65 <=? n) && (n <=? 90) then ascii_of_N (Z.to_N (n + 32)) else c.

(** [s.toLowerCase()] on the letters A to Z. *)
Fixpoint toLowerCase (s : string) : string :=
  match s with
  | EmptyString => EmptyString
  | String c rest => String (toLowerCase_char c) (toLowerCase rest)
  end.

(** [Math.round]: the nearest integer, ties towards +infinity; NaN, the
    infinities, the zeros and integral values are returned as they are. *)
Definition Math_round (x : float) : float :=
  match Prim2SF x with
  | S754_finite s m e =>
      if 0 <=? e then x
      else
        let k := Z.to_pos (- e) in
        let n := if s then Z.neg m else Z.pos m in
        let r := (2 * n + Z.pow_pos 2 k) / Z.pow_pos 2 (k + 1) in
        if r =? 0 then (if s then (-0)%float else 0%float)
        else if r <? 0
             then PrimFloat.opp (PrimFloat.of_uint63 (Uint63.of_Z (- r)))
             else PrimFloat.of_uint63 (Uint63.of_Z r)
  | _ => x
  end.

(** Request bodies as [express.json()] and [express.urlencoded()] hand
    them over. *)
Inductive value : Type :=
| VUndefined
| VNull
| VBool (b : bool)
| VNum (n : float)
| VStr (s : string)
| VArr (items : list value)
| VObj (fields : list (string * value)).

(** Truthiness: [!v] is [negb (truthy v)]. *)
Definition truthy (v : value) : bool :=
  match v with
  | VUndefined | VNull => false
  | VBool b => b
  | VNum n => negb (PrimFloat.eqb n 0%float || PrimFloat.is_nan n)
  | VStr s => negb (String.eqb s EmptyString)
  | VArr _ | VObj _ => true
  end.

Fixpoint lookup_field (k : string) (fields : list (string * value)) : value :=
  match fields with
  | [] => VUndefined
  | (k', v) :: rest => if String.eqb k k' then v else lookup_field k rest
  end.

(** [v.k] for the property names the program reads (none of them is a
    property of a string, number, boolean or array): [None] is the
    TypeError of reading a property of [undefined] or [null]. *)
Definition get (v : value) (k : string) : option value :=
  match v with
  | VUndefined | VNull => None
  | VObj fields => Some (lookup_field k fields)
  | _ => Some VUndefined
  end.

(** [v === s] for a string constant [s]. *)
Definition is_string (s : string) (v : value) : bool :=
  match v with
  | VStr t => String.eqb t s
  | _ => false
  end.

(** [list.includes(v)] for an array of string constants. *)
Definition includes (list : list string) (v : value) : bool :=
  existsb (fun s => is_string s v) list.

Fixpoint join (sep : string) (parts : list string) : string :=
  match parts with
  | [] => EmptyString
  | [p] => p
  | p :: rest => p +:+ sep +:+ join sep rest
  end.

(** [String(v)], as a regular expression applies it to its argument; the
    digits of a number are the runtime's ([fmt]). *)
Fixpoint ToString (fmt : float -> string) (v : value) : string :=
  match v with
  | VUndefined => "undefined"
  | VNull => "null"
  | VBool true => "true"
  | VBool false => "false"
  | VNum n => fmt n
  | VStr s => s
  | VArr items =>
      join ","
        (map (fun item =>
                match item with
                | VUndefined | VNull => EmptyString
                | _ => ToString fmt item
                end) items)
  | VObj _ => "[object Object]"
  end.

(** What the program reads from its surroundings while it serves one
    request: [Date.now()], [new Date()], [process.env.NODE_ENV], and the
    runtime's printing of numbers. *)
Record Date := { getFullYear : Z; getMonth : Z }.

Record Runtime := {
  now : Z;
  currentDate : Date;
  NODE_ENV : option string;
  Number_toString : float -> string
}.

End Js.

(** ** Errors, responses and the observable events of a request *)

Module Http.

(** A thrown error, as far as the program inspects it: [err.name],
    [err.message], [err.status]. *)
Record Err := { name : string; message : string; status : option Z }.

(** The TypeError of the runtime, with the text Node gives it. *)
Definition TypeError (text : string) : Err :=
  {| name := "TypeError"; message := text; status := None |}.

Inductive Level := Info | Warn | Error.

(** The card of [paymentMethods.create] and the parameters of
    [paymentIntents.create]. *)
Record CardParams := {
  number : Js.value;
  exp_month : Js.jsint;
  exp_year : Js.jsint;
  cvc : Js.value
}.

Record IntentParams := {
  amount : float;
  currency : string;
  payment_method : string;
  confirm : bool;
  automatic_payment_methods_enabled : bool;
  allow_redirects : string
}.

Record PaymentIntent := {
  intent_id : string;
  intent_status : string;
  intent_amount : float;
  intent_currency : string
}.

Inductive GatewayCall :=
| PaymentMethodsCreate (card : CardParams)
| PaymentIntentsCreate (params : IntentParams)
| PaymentIntentsRetrieve (id : string).

(** Response bodies: plain text, [{success, error}],
    [{success: true, data: {id, status, amount, currency}}],
    [{error: {message, status, timestamp, path}}] and the health report. *)
Inductive Body :=
| BText (text : string)
| BResult (success : bool) (error : string)
| BPayment (id status : string) (amount : float) (currency : string)
| BError (message : string) (status : Z) (path : string)
| BHealth (message environment : string).

(** Log lines carry their level and message; responses are writes of
    [res.status(code)] followed by [json] or [send]. *)
Inductive Event :=
| Log (level : Level) (text : string)
| Call (call : GatewayCall)
| Respond (code : Z) (body : Body).

(** How a middleware hands over: [next()], no call of [next] (it has
    answered), or an error: thrown, or passed to [next]. *)
Inductive Flow :=
| Continue
| Halt
| Raise (e : Err).

(** The response the client receives is the first one written. *)
Fixpoint response_of (events : list Event) : option (Z * Body) :=
  match events with
  | [] => None
  | Respond code body :: _ => Some (code, body)
  | _ :: rest => response_of rest
  end.

Definition is_call (e : Event) : bool :=
  match e with
  | Call _ => true
  | _ => false
  end.

Definition gateway_calls (events : list Event) : list Event :=
  List.filter is_call events.

End Http.

(** ** [src/middleware/validation.js] *)

Module Validation.
Import Js Http.

(** [cardNumber.replace(/[\s-]/g, '')] *)
Fixpoint cleanNumber (cardNumber : string) : string :=
  match cardNumber with
  | EmptyString => EmptyString
  | String c rest =>
      if is_white_space c || Ascii.eqb c "-"
      then cleanNumber rest
      else String c (cleanNumber rest)
  end.

(** The loop [for (let i = cleanNumber.length - 1; i >= 0; i--)]: [n] is
    [i + 1], so that the loop ends at [n = 0]. *)
Fixpoint luhn_loop (clean : string) (n : nat) (sum : jsint) (isEven : bool) : jsint :=
  match n with
  | O => sum
  | S i =>
      let digit := parseInt (charAt clean i) (Some 10) in
      let digit :=
        if isEven then
          let digit := mul digit (Some 2) in
          if gt digit (Some 9) then sub digit (Some 9) else digit
        else digit in
      luhn_loop clean i (add sum digit) (negb isEven)
  end.

(** The body of that loop, and the loop on the list of the characters it
    visits (from the last one to the first); used to reason about it. *)
Definition luhn_adjust (isEven : bool) (digit : jsint) : jsint :=
  if isEven then
    let digit := mul digit (Some 2) in
    if gt digit (Some 9) then sub digit (Some 9) else digit
  else digit.

Fixpoint luhn_list (cs : list ascii) (sum : jsint) (isEven : bool) : jsint :=
  match cs with
  | [] => sum
  | c :: rest =>
      luhn_list rest (add sum (luhn_adjust isEven (digit_value c))) (negb isEven)
  end.

Definition validateCreditCard (cardNumber : string) : bool :=
  let clean := cleanNumber cardNumber in
  let sum := luhn_loop clean (String.length clean) (Some 0) false in
  strict_eq (rem sum (Some 10)) (Some 0).

(** [parseInt(month, 10)] and [parseInt(year, 10)] for
    [const [month, year] = expiryDate.split('/')]. *)
Definition expiryMonth (expiryDate : string) : jsint :=
  parseInt_opt (nth_error (split "/" expiryDate) 0) (Some 10).

Definition expiryYear (expiryDate : string) : jsint :=
  parseInt_opt (nth_error (split "/" expiryDate) 1) (Some 10).

Definition validateExpiryDate (rt : Runtime) (expiryDate : string) : bool :=
  let currentYear := rem (Some (getFullYear (currentDate rt))) (Some 100) in
  let currentMonth := add (Some (getMonth (currentDate rt))) (Some 1) in
  let expiryYear := expiryYear expiryDate in
  let expiryMonth := expiryMonth expiryDate in
  if lt expiryYear currentYear
     || (strict_eq expiryYear currentYear && lt expiryMonth currentMonth)
  then false
  else true.

(** [/^\d{3,4}$/.test(cvv)] *)
Definition validateCVV (cvv : string) : bool :=
  match list_ascii_of_string cvv with
  | [a; b; c] => is_digit a && is_digit b && is_digit c
  | [a; b; c; d] => is_digit a && is_digit b && is_digit c && is_digit d
  | _ => false
  end.

Definition validCurrencies : list string := ["USD"; "EUR"; "GBP"].
Definition validPaymentMethods : list string := ["credit_card"; "bank_transfer"].

Definition reject (log error : string) : list Event * Flow :=
  ([Log Warn log; Respond 400 (BResult false error)], Halt).

(** The card branch of [validatePayment], entered with a truthy
    [cardDetails]. A truthy card number or expiry date that is not a
    string has no [replace] or [split] method. *)
Definition validateCard (rt : Runtime) (cardDetails : value) : list Event * Flow :=
  match get cardDetails "cardNumber", get cardDetails "expiryDate",
        get cardDetails "cvv" with
  | Some cardNumber, Some expiryDate, Some cvv =>
      if negb (truthy cardNumber) || negb (truthy expiryDate) || negb (truthy cvv)
      then reject "Missing required card details"
                  "Card number, expiry date, and CVV are required"
      else
        match cardNumber with
        | VStr number =>
            if negb (validateCreditCard number)
            then reject "Invalid card number" "Invalid card number"
            else
              match expiryDate with
              | VStr expiry =>
                  if negb (validateExpiryDate rt expiry)
                  then reject "Invalid expiry date"
                              "Card has expired or invalid expiry date"
                  else if negb (validateCVV (ToString (Number_toString rt) cvv))
                  then reject "Invalid CVV" "Invalid CVV"
                  else ([], Continue)
              | _ => ([], Raise (TypeError "expiryDate.split is not a function"))
              end
        | _ => ([], Raise (TypeError "cardNumber.replace is not a function"))
        end
  | _, _, _ =>
      ([], Raise (TypeError
         "Cannot destructure property 'cardNumber' of 'cardDetails' as it is undefined."))
  end.

(** [validatePayment(req, res, next)], on [req.body]. *)
Definition validatePayment (rt : Runtime) (body : value) : list Event * Flow :=
  match get body "amount", get body "currency", get body "paymentMethod",
        get body "cardDetails" with
  | Some amount, Some currency, Some paymentMethod, Some cardDetails =>
      if negb (truthy amount) || negb (truthy currency) || negb (truthy paymentMethod)
      then reject "Missing required payment fields"
                  "Missing required fields: amount, currency, and paymentMethod are required"
      else if match amount with
              | VNum n => PrimFloat.leb n 0%float
              | _ => true
              end
      then reject "Invalid amount" "Amount must be a positive number"
      else if negb (includes validCurrencies currency)
      then reject "Invalid currency"
                  ("Currency must be one of: " +:+ join ", " validCurrencies)
      else if negb (includes validPaymentMethods paymentMethod)
      then reject "Invalid payment method"
                  ("Payment method must be one of: " +:+ join ", " validPaymentMethods)
      else if is_string "credit_card" paymentMethod
      then
        if negb (truthy cardDetails)
        then reject "Missing card details for credit card payment"
                    "Card details are required for credit card payments"
        else validateCard rt cardDetails
      else ([], Continue)
  | _, _, _, _ =>
      ([], Raise (TypeError
         "Cannot destructure property 'amount' of 'req.body' as it is undefined."))
  end.

End Validation.

(** ** [src/middleware/rateLimit.js] and the limiter of [src/index.js] *)

Module RateLimit.
Import Js Http.

Record Window := { totalHits : Z; resetTime : Z }.

Record Options := {
  windowMs : Z;
  max : Z;
  statusCode : Z;
  message : Body;
  handler : Z -> Body -> list Event
}.

(** Modelled from the spec: [rateLimit] comes from the express-rate-limit
    package, which is a dependency and not part of the repository. A
    counter per client address counts the requests within a fixed time
    window; it is created on the first request of a window and starts
    again once the window has expired (spec 3). *)
Definition increment (windowMs now : Z) (key : string)
    (store : gmap string Window) : gmap string Window * Z :=
  let fresh := {| totalHits := 1; resetTime := now + windowMs |} in
  match store !! key with
  | Some w =>
      if now <? resetTime w
      then (<[key := {| totalHits := totalHits w + 1; resetTime := resetTime w |}]> store,
            totalHits w + 1)
      else (<[key := fresh]> store, 1)
  | None => (<[key := fresh]> store, 1)
  end.

(** Modelled from the spec: the middleware that [rateLimit(options)]
    returns increments and checks in one step (spec 4.3); beyond [max] it
    runs the handler with the status code and message of the options and
    does not call [next]. *)
Definition rateLimit (o : Options) (rt : Runtime) (ip : string)
    (store : gmap string Window) : gmap string Window * (list Event * Flow) :=
  let '(store', total) := increment (windowMs o) (now rt) ip store in
  if max o <? total
  then (store', (handler o (statusCode o) (message o), Halt))
  else (store', ([], Continue)).

(** The package's defaults where the options leave them out: status 429, a
    plain-text message, and a handler that sends it. *)
Definition default_statusCode : Z := 429.
Definition default_message : Body :=
  BText "Too many requests, please try again later.".
Definition default_handler (code : Z) (body : Body) : list Event :=
  [Respond code body].

(** [const limiter = rateLimit({ windowMs, max })] of [src/index.js] *)
Definition limiter : Options :=
  {| windowMs := 15 * 60 * 1000;
     max := 100;
     statusCode := default_statusCode;
     message := default_message;
     handler := default_handler |}.

Definition paymentLimiter : Options :=
  {| windowMs := 15 * 60 * 1000;
     max := 100;
     statusCode := default_statusCode;
     message := BResult false "Too many payment requests, please try again later";
     handler := fun code body =>
                  [Log Warn "Rate limit exceeded"; Respond code body] |}.

Definition failedPaymentLimiter : Options :=
  {| windowMs := 60 * 60 * 1000;
     max := 5;
     statusCode := default_statusCode;
     message := BResult false
                  "Too many failed payment attempts, please try again later";
     handler := fun code body =>
                  [Log Warn "Failed payment rate limit exceeded"; Respond code body] |}.

(** The number of requests counted for [ip] in the window open at [now]. *)
Definition hits (store : gmap string Window) (ip : string) (now : Z) : Z :=
  match store !! ip with
  | Some w => if now <? resetTime w then totalHits w else 0
  | None => 0
  end.

End RateLimit.

(** ** [src/middleware/errorHandler.js] *)

Module ErrorHandler.
Import Js Http.

Definition is_production (rt : Runtime) : bool :=
  match NODE_ENV rt with
  | Some env => String.eqb env "production"
  | None => false
  end.

(** [err.status || 500] and [err.message || 'Internal Server Error'] *)
Definition default_status (err : Err) : Z :=
  match status err with
  | Some s => if s =? 0 then 500 else s
  | None => 500
  end.

Definition default_message (err : Err) : string :=
  if String.eqb (message err) EmptyString
  then "Internal Server Error"
  else message err.

(** The status and label of the three kinds the handler names. *)
Definition error_label (err : Err) : option (Z * string) :=
  if String.eqb (name err) "ValidationError" then Some (400, "Validation Error")
  else if String.eqb (name err) "UnauthorizedError" then Some (401, "Unauthorized")
  else if String.eqb (name err) "ForbiddenError" then Some (403, "Forbidden")
  else None.

(** The status and message of the response. *)
Definition resolve (rt : Runtime) (err : Err) : Z * string :=
  let '(status, message) :=
    if String.eqb (name err) "ValidationError" then (400, "Validation Error")
    else if String.eqb (name err) "UnauthorizedError" then (401, "Unauthorized")
    else if String.eqb (name err) "ForbiddenError" then (403, "Forbidden")
    else (default_status err, default_message err) in
  let message :=
    if is_production rt && (status =? 500)
    then "Internal Server Error"
    else message in
  (status, message).

Definition errorHandler (rt : Runtime) (path : string) (err : Err) : list Event :=
  let '(status, message) := resolve rt err in
  [Log Error (Http.message err); Respond status (BError message status path)].

End ErrorHandler.

(** ** [src/services/stripeService.js] *)

Module StripeService.
Import Js Http.

(** The payment gateway as the program sees it during one request: each
    call either returns or throws. *)
Record Gateway := {
  paymentMethods_create : CardParams -> Err + string;
  paymentIntents_create : IntentParams -> Err + PaymentIntent;
  paymentIntents_retrieve : string -> Err + PaymentIntent
}.

(** A gateway reports the minor-unit amount it was given. *)
Definition reports_amount (gw : Gateway) : Prop :=
  forall (params : IntentParams) (paymentIntent : PaymentIntent),
    paymentIntents_create gw params = inr paymentIntent ->
    intent_amount paymentIntent = amount params.

Definition intent_params (amount : float) (currency paymentMethod : string)
    : IntentParams :=
  {| amount := Math_round (amount * 100)%float;
     currency := toLowerCase currency;
     payment_method := paymentMethod;
     confirm := true;
     automatic_payment_methods_enabled := true;
     allow_redirects := "never" |}.

(** [createPaymentIntent(amount, currency, paymentMethod)]. The product
    [amount * 100] is embedded for an amount that is a number ([None]
    otherwise; validation lets only numbers through); a currency that is
    not a string has no [toLowerCase]. *)
Definition createPaymentIntent (gw : Gateway) (amount currency : value)
    (paymentMethod : string) : option (list Event * (Err + PaymentIntent)) :=
  match amount with
  | VNum a =>
      match currency with
      | VStr c =>
          let params := intent_params a c paymentMethod in
          match paymentIntents_create gw params with
          | inr paymentIntent =>
              Some ([Call (PaymentIntentsCreate params);
                     Log Info "Payment intent created"], inr paymentIntent)
          | inl error =>
              Some ([Call (PaymentIntentsCreate params);
                     Log Error "Failed to create payment intent"], inl error)
          end
      | _ =>
          Some ([Log Error "Failed to create payment intent"],
                inl (TypeError "currency.toLowerCase is not a function"))
      end
  | _ => None
  end.

Definition retrievePaymentIntent (gw : Gateway) (paymentIntentId : string)
    : list Event * (Err + PaymentIntent) :=
  match paymentIntents_retrieve gw paymentIntentId with
  | inr paymentIntent =>
      ([Call (PaymentIntentsRetrieve paymentIntentId);
        Log Info "Payment intent retrieved"], inr paymentIntent)
  | inl error =>
      ([Call (PaymentIntentsRetrieve paymentIntentId);
        Log Error "Failed to retrieve payment intent"], inl error)
  end.

End StripeService.

(** ** [src/routes/payments.js] and [src/routes/health.js] *)

Module Payments.
Import Js Http StripeService.

Definition payment_body (paymentIntent : PaymentIntent) : Body :=
  BPayment (intent_id paymentIntent) (intent_status paymentIntent)
           (intent_amount paymentIntent / 100)%float
           (intent_currency paymentIntent).

(** The arguments of [paymentMethods.create], read from [cardDetails]. *)
Definition card_params (cardDetails : value) : Err + CardParams :=
  match get cardDetails "cardNumber", get cardDetails "expiryDate",
        get cardDetails "cvv" with
  | Some cardNumber, Some expiryDate, Some cvv =>
      match expiryDate with
      | VStr expiry =>
          inr {| number := cardNumber;
                 exp_month := parseInt_opt (nth_error (split "/" expiry) 0) None;
                 exp_year := parseInt_opt (nth_error (split "/" expiry) 1) None;
                 cvc := cvv |}
      | VUndefined =>
          inl (TypeError "Cannot read properties of undefined (reading 'split')")
      | VNull =>
          inl (TypeError "Cannot read properties of null (reading 'split')")
      | _ => inl (TypeError "cardDetails.expiryDate.split is not a function")
      end
  | _, _, _ =>
      inl (TypeError
             match cardDetails with
             | VNull => "Cannot read properties of null (reading 'cardNumber')"
             | _ => "Cannot read properties of undefined (reading 'cardNumber')"
             end)
  end.

(** The [try] block of the POST handler: the events, and the error thrown
    if there is one. *)
Definition post_try (gw : Gateway) (body : value)
    : option (list Event * option Err) :=
  match get body "amount", get body "currency", get body "cardDetails" with
  | Some amount, Some currency, Some cardDetails =>
      let started := [Log Info "Processing payment"] in
      match card_params cardDetails with
      | inl error => Some (started, Some error)
      | inr card =>
          match paymentMethods_create gw card with
          | inl error =>
              Some (started ++ [Call (PaymentMethodsCreate card)], Some error)
          | inr stripePaymentMethod =>
              match createPaymentIntent gw amount currency stripePaymentMethod with
              | None => None
              | Some (events, inl error) =>
                  Some (started ++ [Call (PaymentMethodsCreate card)] ++ events,
                        Some error)
              | Some (events, inr paymentIntent) =>
                  Some (started ++ [Call (PaymentMethodsCreate card)] ++ events
                        ++ [Log Info "Payment processed successfully";
                            Respond 201 (payment_body paymentIntent)],
                        None)
              end
          end
      end
  | _, _, _ =>
      Some ([], Some (TypeError
        "Cannot destructure property 'amount' of 'req.body' as it is undefined."))
  end.

(** The POST handler with its [catch]: a failure is logged, the
    failed-attempt limiter is called, then the error goes to [next]. When
    the limiter lets the request pass it calls [next()] itself; no handler
    of the program answers that call, and it is not recorded. *)
Definition post (rt : Runtime) (gw : Gateway) (ip : string)
    (failed : gmap string RateLimit.Window) (body : value)
    : option (gmap string RateLimit.Window * (list Event * Flow)) :=
  match post_try gw body with
  | None => None
  | Some (events, None) => Some (failed, (events, Halt))
  | Some (events, Some error) =>
      let '(failed', (limited, _)) :=
        RateLimit.rateLimit RateLimit.failedPaymentLimiter rt ip failed in
      Some (failed',
            (events ++ [Log Error "Payment processing failed"] ++ limited,
             Raise error))
  end.

(** The handler of [GET /:paymentIntentId]. *)
Definition get_status (gw : Gateway) (paymentIntentId : string)
    : list Event * Flow :=
  match retrievePaymentIntent gw paymentIntentId with
  | (events, inr paymentIntent) =>
      (events ++ [Respond 200 (payment_body paymentIntent)], Halt)
  | (events, inl error) =>
      (events ++ [Log Error "Failed to retrieve payment status"], Raise error)
  end.

(** The health check; the uptime and the timestamp of the report are left
    out of the body. *)
Definition health (rt : Runtime) : list Event * Flow :=
  let environment :=
    match NODE_ENV rt with
    | Some env => if String.eqb env EmptyString then "development" else env
    | None => "development"
    end in
  ([Log Info "Health check performed"; Respond 200 (BHealth "OK" environment)],
   Halt).

End Payments.

(** ** [src/index.js]: the application *)

Module App.
Import Js Http.

Inductive PaymentRoute :=
| Post (body : value)
| Get (paymentIntentId : string).

Inductive Endpoint :=
| PaymentsApi (route : PaymentRoute)
| Health.

Record Request := { ip : string; path : string; endpoint : Endpoint }.

(** The three counter stores: of the application's limiter, of
    [paymentLimiter] and of [failedPaymentLimiter]. *)
Record Stores := {
  general : gmap string RateLimit.Window;
  payments : gmap string RateLimit.Window;
  failed : gmap string RateLimit.Window
}.

Definition fresh : Stores := {| general := ∅; payments := ∅; failed := ∅ |}.

(** The end of the chain: an error reaches [errorHandler]. *)
Definition finish (rt : Runtime) (req : Request) (result : list Event * Flow)
    : list Event :=
  match result with
  | (events, Raise error) =>
      events ++ ErrorHandler.errorHandler rt (path req) error
  | (events, _) => events
  end.

(** The payment router: [router.use(paymentLimiter)], then the route. *)
Definition paymentRoutes (rt : Runtime) (gw : StripeService.Gateway)
    (st : Stores) (ip : string) (route : PaymentRoute)
    : option (Stores * (list Event * Flow)) :=
  let '(payments', limited) :=
    RateLimit.rateLimit RateLimit.paymentLimiter rt ip (payments st) in
  let st := {| general := general st; payments := payments'; failed := failed st |} in
  match limited with
  | (_, Continue) =>
      match route with
      | Post body =>
          match Validation.validatePayment rt body with
          | (_, Continue) =>
              match Payments.post rt gw ip (failed st) body with
              | Some (failed', result) =>
                  Some ({| general := general st; payments := payments st;
                           failed := failed' |}, result)
              | None => None
              end
          | rejected => Some (st, rejected)
          end
      | Get paymentIntentId =>
          Some (st, Payments.get_status gw paymentIntentId)
      end
  | _ => Some (st, limited)
  end.

(** One request through the application: the limiter of [app.use(limiter)],
    then the routes, then the error handler. *)
Definition app (rt : Runtime) (gw : StripeService.Gateway) (st : Stores)
    (req : Request) : option (Stores * list Event) :=
  let '(general', limited) :=
    RateLimit.rateLimit RateLimit.limiter rt (ip req) (general st) in
  let st := {| general := general'; payments := payments st; failed := failed st |} in
  match limited with
  | (_, Continue) =>
      match endpoint req with
      | PaymentsApi route =>
          match paymentRoutes rt gw st (ip req) route with
          | Some (st', result) => Some (st', finish rt req result)
          | None => None
          end
      | Health => Some (st, finish rt req (Payments.health rt))
      end
  | _ => Some (st, finish rt req limited)
  end.

(** The stores after a sequence of requests, each served with the runtime
    and the gateway of its moment. *)
Fixpoint stores_after (st : Stores)
    (requests : list (Runtime * StripeService.Gateway * Request)) : option Stores :=
  match requests with
  | [] => Some st
  | (rt, gw, req) :: rest =>
      match app rt gw st req with
      | Some (st', _) => stores_after st' rest
      | None => None
      end
  end.

(** A request of the client [client] that arrives in the 15 minutes from
    [start]. *)
Definition from_client (client : string) (start : Z)
    (request : Runtime * StripeService.Gateway * Request) : Prop :=
  let '(rt, _, req) := request in
  ip req = client /\ start <= now rt < start + 15 * 60 * 1000.

(** The counter of [client] holds [n] requests in a window that stays open
    for the 15 minutes from [start]. *)
Definition counted (client : string) (start n : Z)
    (store : gmap string RateLimit.Window) : Prop :=
  (n = 0 /\ store !! client = None)
  \/ exists reset : Z,
      store !! client = Some {| RateLimit.totalHits := n; RateLimit.resetTime := reset |}
      /\ start + 15 * 60 * 1000 <= reset.

End App.

(** ** The card checks as the specification words them *)

Module Spec.

(** The digits of a string of decimal digits; [None] for any other string. *)
Definition digits_of (s : string) : option (list Z) :=
  mapM Js.digit_value (list_ascii_of_string s).

(** The contribution of the digit [d] at position [k] from the right
    (the rightmost digit is at position 0): every second digit is doubled,
    and 9 is subtracted from a doubled digit above 9. *)
Definition luhn_term (k : nat) (d : Z) : Z :=
  if Nat.odd k then (if 9 <? 2 * d then 2 * d - 9 else 2 * d) else d.

Definition luhn_checksum (digits : list Z) : Z :=
  foldr Z.add 0 (imap luhn_term (reverse digits)).

Definition luhn_valid (digits : list Z) : bool :=
  luhn_checksum digits mod 10 =? 0.

(** The text of a two-digit field of an MM/YY date. *)
Definition digit_char (d : Z) : ascii := ascii_of_N (Z.to_N (48 + d)).

Definition two_digits (a b : Z) : string :=
  String (digit_char a) (String (digit_char b) EmptyString).

Definition mm_yy (m1 m2 y1 y2 : Z) : string :=
  two_digits m1 m2 +:+ "/" +:+ two_digits y1 y2.

(** The journey of an amount: to minor units for the gateway, and back
    for the response. *)
Definition round_trip (amount : float) : float :=
  (Js.Math_round (amount * 100) / 100)%float.

(** The amount of [k] cents as the JSON parser reads it: the double nearest
    to k/100. *)
Definition cents (k : Z) : float :=
  (PrimFloat.of_uint63 (Uint63.of_Z k) / 100)%float.

(** [round_trip] leaves the amounts of [k], [k + 1], ..., [k + n - 1] cents
    as they are, compared as [===] does. *)
Fixpoint round_trip_fixes (n : nat) (k : Z) : bool :=
  match n with
  | O => true
  | S n' => PrimFloat.eqb (round_trip (cents k)) (cents k)
            && round_trip_fixes n' (k + 1)
  end.

End Spec.

(** ** Concrete runtimes, gateways and requests *)

Module Examples.
Import Js Http StripeService App.

Definition development (date : Date) (time : Z) : Runtime :=
  {| now := time;
     currentDate := date;
     NODE_ENV := Some "development";
     Number_toString := fun _ => "NaN" |}.

Definition january_2021 : Runtime :=
  development {| getFullYear := 2021; getMonth := 0 |} 1609459200000.

Definition november_2026 : Runtime :=
  development {| getFullYear := 2026; getMonth := 10 |} 1793616000000.

(** A gateway that accepts every card and reports the amount and the
    currency it was given; it knows no payment intent. *)
Definition echo_gateway : Gateway :=
  {| paymentMethods_create := fun _ => inr "pm_1";
     paymentIntents_create := fun params =>
       inr {| intent_id := "pi_1";
              intent_status := "succeeded";
              intent_amount := amount params;
              intent_currency := currency params |};
     paymentIntents_retrieve := fun id =>
       inl {| name := "Error";
              message := "No such payment_intent: '" +:+ id +:+ "'";
              status := None |} |}.

Definition post_payment (body : value) : Request :=
  {| ip := "203.0.113.7";
     path := "/api/v1/payments";
     endpoint := PaymentsApi (Post body) |}.

Definition card_body (amount : float) : value :=
  VObj [("amount", VNum amount);
        ("currency", VStr "USD");
        ("paymentMethod", VStr "credit_card");
        ("cardDetails",
         VObj [("cardNumber", VStr "4242424242424242");
               ("expiryDate", VStr "12/30");
               ("cvv", VStr "123")])].

Definition card_payment (amount : float) : Request :=
  post_payment (card_body amount).

(** An error of a kind the error handler has no case for. *)
Definition not_found : Err :=
  {| name := "NotFound"; message := "No such payment_intent"; status := None |}.

Definition gateway_declined : Err :=
  {| name := "GatewayDeclined"; message := "Your card was declined."; status := None |}.

Definition validation_error : Err :=
  {| name := "ValidationError"; message := "amount is malformed"; status := None |}.

Definition internal_error : Err :=
  {| name := "Error"; message := "connect ECONNREFUSED 10.0.0.5:5432"; status := None |}.

Definition production : Runtime :=
  {| now := 1793616000000;
     currentDate := {| getFullYear := 2026; getMonth := 10 |};
     NODE_ENV := Some "production";
     Number_toString := fun _ => "NaN" |}.

(** A gateway that declines every card. *)
Definition declining_gateway : Gateway :=
  {| paymentMethods_create := fun _ =>
       inl {| name := "Error"; message := "Your card was declined."; status := None |};
     paymentIntents_create := paymentIntents_create echo_gateway;
     paymentIntents_retrieve := paymentIntents_retrieve echo_gateway |}.

Definition bank_transfer_body : value :=
  VObj [("amount", VNum 100);
        ("currency", VStr "EUR");
        ("paymentMethod", VStr "bank_transfer")].

Definition negative_amount_body : value :=
  VObj [("amount", VNum (-5));
        ("currency", VStr "USD");
        ("paymentMethod", VStr "credit_card")].

Definition get_payment (id : string) : Request :=
  {| ip := "203.0.113.7";
     path := "/api/v1/payments/" +:+ id;
     endpoint := PaymentsApi (Get id) |}.

(** The stores after a hundred requests of that client in the window open
    in November 2026. *)
Definition busy : Stores :=
  {| general := {[ "203.0.113.7" :=
                    {| RateLimit.totalHits := 100;
                       RateLimit.resetTime := 1793616900000 |} ]};
     payments := {[ "203.0.113.7" :=
                     {| RateLimit.totalHits := 100;
                        RateLimit.resetTime := 1793616900000 |} ]};
     failed := ∅ |}.

End Examples.

(** ** Vocabulary for further properties of the code *)

Module Coverage.
Import Js Http.

(** The characters that [cardNumber.replace(/[\s-]/g, '')] removes. *)
Definition is_separator (c : ascii) : bool :=
  is_white_space c || Ascii.eqb c "-".

Definition is_respond (e : Event) : bool :=
  match e with
  | Respond _ _ => true
  | _ => false
  end.

(** The currencies the gateway is sent. *)
Definition gateway_currencies : list string := ["usd"; "eur"; "gbp"].

(** A credit-card body whose card number is a JSON number. *)
Definition numeric_card_body : Js.value :=
  VObj [("amount", VNum 100);
        ("currency", VStr "USD");
        ("paymentMethod", VStr "credit_card");
        ("cardDetails",
         VObj [("cardNumber", VNum 4242424242424242);
               ("expiryDate", VStr "12/30");
               ("cvv", VStr "123")])].

(** A bank transfer that carries a card failing every check: a number
    that fails the Luhn check, a date in the past, a CVV that is no
    number. *)
Definition bank_transfer_with_card : Js.value :=
  VObj [("amount", VNum 100);
        ("currency", VStr "EUR");
        ("paymentMethod", VStr "bank_transfer");
        ("cardDetails",
         VObj [("cardNumber", VStr "1234");
               ("expiryDate", VStr "01/20");
               ("cvv", VStr "x")])].

Definition health_request : App.Request :=
  {| App.ip := "203.0.113.7"; App.path := "/health"; App.endpoint := App.Health |}.

(** An error that carries its own status. *)
Definition bad_gateway : Err :=
  {| name := "Error";
     message := "upstream 10.0.0.5:8443 refused the connection";
     status := Some 502 |}.

End Coverage.

(** ** Properties of the card validators *)

Section CardNumber.
Import Js Validation Spec.

Lemma luhn_loop_step (s : string) (i : nat) (sum : jsint) (e : bool) :
  luhn_loop s (S i) sum e
  = luhn_loop s i (add sum (luhn_adjust e (parseInt (charAt s i) (Some 10)))) (negb e).
Proof. reflexivity. Qed.

Lemma luhn_adjust_digit (k : nat) (d : Z) :
  luhn_adjust (Nat.odd k) (Some d) = Some (luhn_term k d).
Proof.
  unfold luhn_adjust, luhn_term. destruct (Nat.odd k); [|reflexivity].
  cbn. replace (d * 2) with (2 * d) by lia. destruct (9 <? 2 * d); reflexivity.
Qed.

Lemma parseInt_char (c : ascii) :
  parseInt (String c EmptyString) (Some 10) = digit_value c.
Proof. destruct c as [[] [] [] [] [] [] [] []]; reflexivity. Qed.

Lemma get_lookup (s : string) (i : nat) :
  String.get i s = list_ascii_of_string s !! i.
Proof.
  revert i; induction s as [|c s IH]; intros [|i]; simpl; auto.
Qed.

Lemma length_chars (s : string) :
  String.length s = length (list_ascii_of_string s).
Proof. induction s; simpl; congruence. Qed.

Lemma luhn_loop_list (s : string) (n : nat) (sum : jsint) (e : bool) :
  (n <= length (list_ascii_of_string s))%nat ->
  luhn_loop s n sum e = luhn_list (reverse (take n (list_ascii_of_string s))) sum e.
Proof.
  revert sum e; induction n as [|i IH]; intros sum e Hn; [reflexivity|].
  destruct (lookup_lt_is_Some_2 (list_ascii_of_string s) i) as [c Hc]; [lia|].
  rewrite (take_S_r _ _ _ Hc), reverse_snoc, luhn_loop_step.
  unfold charAt. rewrite get_lookup, Hc, parseInt_char.
  cbn [luhn_list]. apply IH. lia.
Qed.

Lemma luhn_list_NaN (cs : list ascii) (e : bool) : luhn_list cs None e = None.
Proof. revert e; induction cs; intros e; simpl; auto. Qed.

Lemma luhn_list_not_digits (cs : list ascii) (sum : jsint) (e : bool) :
  Exists (fun c => digit_value c = None) cs -> luhn_list cs sum e = None.
Proof.
  intros H; revert sum e; induction H as [c cs Hc | c cs _ IH]; intros sum e; simpl.
  - rewrite Hc. replace (add sum (luhn_adjust e None)) with (@None Z)
      by (destruct e, sum; reflexivity).
    apply luhn_list_NaN.
  - apply IH.
Qed.

Lemma digit_value_range (c : ascii) (d : Z) : digit_value c = Some d -> 0 <= d <= 9.
Proof.
  unfold digit_value, is_digit. destruct (_ && _) eqn:E; [|discriminate].
  intros [= <-]. lia.
Qed.

Lemma luhn_list_digits (cs : list ascii) (ds : list Z) (a : Z) (k : nat) :
  Forall2 (fun c d => digit_value c = Some d) cs ds ->
  luhn_list cs (Some a) (Nat.odd k)
  = Some (a + foldr Z.add 0 (imap (fun j => luhn_term (k + j)) ds)).
Proof.
  intros H; revert a k; induction H as [|c d cs ds Hc _ IH]; intros a k.
  - simpl. f_equal. lia.
  - cbn [luhn_list]. rewrite Hc, luhn_adjust_digit.
    replace (negb (Nat.odd k)) with (Nat.odd (S k))
      by (rewrite Nat.odd_succ, <- Nat.negb_odd; reflexivity).
    cbn [add]. rewrite IH, imap_cons. cbn [foldr]. rewrite Nat.add_0_r.
    f_equal. rewrite <- Z.add_assoc. f_equal. f_equal. f_equal.
    apply imap_ext. intros j x _. cbn. f_equal. lia.
Qed.

Lemma rem_10_zero (n : Z) : (Z.rem n 10 =? 0) = (n mod 10 =? 0).
Proof.
  destruct (Z.eqb_spec (Z.rem n 10) 0) as [H|H], (Z.eqb_spec (n mod 10) 0) as [K|K];
    try reflexivity; exfalso.
  - apply K. apply Z.mod_divide; [lia|]. apply Z.rem_divide; [lia|exact H].
  - apply H. apply Z.rem_divide; [lia|]. apply Z.mod_divide; [lia|exact K].
Qed.

Lemma validateCreditCard_digits (s : string) :
  validateCreditCard s
  = match digits_of (cleanNumber s) with
    | Some digits => luhn_valid digits
    | None => false
    end.
Proof.
  unfold validateCreditCard, digits_of.
  rewrite length_chars, luhn_loop_list by lia.
  rewrite take_ge by lia.
  destruct (mapM digit_value (list_ascii_of_string (cleanNumber s))) as [ds|] eqn:E.
  - apply mapM_Some_1, Forall2_reverse in E.
    change false with (Nat.odd 0). rewrite (luhn_list_digits _ _ 0 0 E).
    unfold luhn_valid, luhn_checksum. cbn [rem strict_eq Z.eqb Nat.add Z.add].
    apply rem_10_zero.
  - apply mapM_None_1 in E.
    rewrite luhn_list_not_digits; [reflexivity|].
    apply Exists_exists in E as (c & Hin & Hc). apply Exists_exists.
    exists c. split; [|exact Hc]. apply elem_of_reverse. exact Hin.
Qed.


Lemma cleanNumber_filter (s : string) :
  list_ascii_of_string (cleanNumber s)
  = List.filter (fun c => negb (is_white_space c || Ascii.eqb c "-"))
      (list_ascii_of_string s).
Proof.
  induction s as [|c s IH]; [reflexivity|]. cbn [cleanNumber list_ascii_of_string List.filter].
  destruct (is_white_space c || Ascii.eqb c "-"); cbn; [exact IH | f_equal; exact IH].
Qed.

(** C6: [validateCreditCard] removes white space and dashes from its input
    and returns true exactly when what remains is a string of digits whose
    Luhn checksum (every second digit from the right doubled, 9 subtracted
    from a doubled digit above 9, all summed) is 0 modulo 10; so it accepts
    4242424242424242, with or without separators, and rejects
    4242424242424241. *)
Theorem validateCreditCard_luhn :
  (forall s : string,
      list_ascii_of_string (cleanNumber s)
      = List.filter (fun c => negb (is_white_space c || Ascii.eqb c "-"))
          (list_ascii_of_string s))
  /\ (forall s : string,
        validateCreditCard s
        = match digits_of (cleanNumber s) with
          | Some digits => luhn_checksum digits mod 10 =? 0
          | None => false
          end)
  /\ validateCreditCard "4242424242424242" = true
  /\ validateCreditCard "4242 4242-4242 4242" = true
  /\ validateCreditCard "4242424242424241" = false.
Proof.
  split; [exact cleanNumber_filter|].
  split; [exact validateCreditCard_digits|].
  repeat split; reflexivity.
Qed.

End CardNumber.

Section ExpiryDate.
Import Js Validation Spec Examples.

Lemma digit_cases (d : Z) :
  0 <= d <= 9 ->
  d = 0 \/ d = 1 \/ d = 2 \/ d = 3 \/ d = 4 \/ d = 5 \/ d = 6 \/ d = 7 \/ d = 8 \/ d = 9.
Proof. lia. Qed.

Ltac each_digit H :=
  apply digit_cases in H;
  repeat (destruct H as [H | H]); subst.

Lemma digit_char_not_slash (d : Z) :
  0 <= d <= 9 -> Ascii.eqb (digit_char d) "/" = false.
Proof. intros H. each_digit H; reflexivity. Qed.

Lemma parseInt_two_digits (a b : Z) :
  0 <= a <= 9 -> 0 <= b <= 9 ->
  parseInt (two_digits a b) (Some 10) = Some (10 * a + b).
Proof. intros Ha Hb. each_digit Ha; each_digit Hb; reflexivity. Qed.

Lemma split_mm_yy (m1 m2 y1 y2 : Z) :
  0 <= m1 <= 9 -> 0 <= m2 <= 9 -> 0 <= y1 <= 9 -> 0 <= y2 <= 9 ->
  split "/" (mm_yy m1 m2 y1 y2) = [two_digits m1 m2; two_digits y1 y2].
Proof.
  intros H1 H2 H3 H4.
  change (mm_yy m1 m2 y1 y2)
    with (String (digit_char m1) (String (digit_char m2) (String "/"
           (String (digit_char y1) (String (digit_char y2) EmptyString))))).
  unfold split. cbn [split_go].
  rewrite !digit_char_not_slash by assumption.
  reflexivity.
Qed.

(** The decision of [validateExpiryDate] once both fields are numbers. *)
Lemma validateExpiryDate_numeric (rt : Runtime) (s : string) (mm yy : Z) :
  expiryMonth s = Some mm -> expiryYear s = Some yy ->
  validateExpiryDate rt s = false
  <-> yy < Z.rem (getFullYear (currentDate rt)) 100
      \/ (yy = Z.rem (getFullYear (currentDate rt)) 100
          /\ mm < getMonth (currentDate rt) + 1).
Proof.
  intros Hm Hy. unfold validateExpiryDate. rewrite Hm, Hy. cbn.
  destruct (Z.ltb_spec yy (Z.rem (getFullYear (currentDate rt)) 100));
    destruct (Z.eqb_spec yy (Z.rem (getFullYear (currentDate rt)) 100));
    destruct (Z.ltb_spec mm (getMonth (currentDate rt) + 1));
    cbn; split; intros; try reflexivity; try discriminate; lia.
Qed.

(** C7: for a date written MM/YY, [validateExpiryDate] returns false
    exactly when the two-digit year is below the current year modulo 100,
    or equals it while the month is below the current month; otherwise it
    returns true. So "12/20" is rejected at every date from January 2021 to
    December 2099, and a month and year that are not before the current
    ones are accepted. *)
Theorem validateExpiryDate_mm_yy (rt : Runtime) (m1 m2 y1 y2 : Z) :
  0 <= m1 <= 9 -> 0 <= m2 <= 9 -> 0 <= y1 <= 9 -> 0 <= y2 <= 9 ->
  let currentYear := Z.rem (getFullYear (currentDate rt)) 100 in
  let currentMonth := getMonth (currentDate rt) + 1 in
  let month := 10 * m1 + m2 in
  let year := 10 * y1 + y2 in
  (validateExpiryDate rt (mm_yy m1 m2 y1 y2) = false
   <-> year < currentYear \/ (year = currentYear /\ month < currentMonth))
  /\ (validateExpiryDate rt (mm_yy m1 m2 y1 y2) = true
      <-> currentYear < year \/ (year = currentYear /\ currentMonth <= month))
  /\ (2021 <= getFullYear (currentDate rt) <= 2099 ->
      validateExpiryDate rt "12/20" = false).
Proof.
  intros H1 H2 H3 H4 currentYear currentMonth month year.
  assert (Hm : expiryMonth (mm_yy m1 m2 y1 y2) = Some month).
  { unfold expiryMonth. rewrite split_mm_yy by assumption.
    apply parseInt_two_digits; assumption. }
  assert (Hy : expiryYear (mm_yy m1 m2 y1 y2) = Some year).
  { unfold expiryYear. rewrite split_mm_yy by assumption.
    apply parseInt_two_digits; assumption. }
  pose proof (validateExpiryDate_numeric rt _ _ _ Hm Hy) as Hfalse.
  fold currentYear currentMonth in Hfalse.
  split; [exact Hfalse|]. split.
  - destruct (validateExpiryDate rt (mm_yy m1 m2 y1 y2)).
    + split; [intros _|reflexivity].
      assert (~ (year < currentYear \/ year = currentYear /\ month < currentMonth))
        by (intros K; apply Hfalse in K; discriminate).
      lia.
    + split; [discriminate|]. intros K.
      assert (year < currentYear \/ year = currentYear /\ month < currentMonth)
        by (apply Hfalse; reflexivity).
      lia.
  - intros Hrange.
    apply (validateExpiryDate_numeric rt "12/20" 12 20); [reflexivity|reflexivity|].
    left. assert (Z.rem (getFullYear (currentDate rt)) 100 = getFullYear (currentDate rt) - 2000).
    { symmetry. apply Z.rem_unique with (q := 20); lia. }
    lia.
Qed.

Lemma validateExpiryDate_mm_yy_witness :
  validateExpiryDate january_2021 "12/20" = false.
Proof.
  apply (proj1 (validateExpiryDate_mm_yy january_2021 1 2 2 0
                  ltac:(lia) ltac:(lia) ltac:(lia) ltac:(lia))).
  left. vm_compute. reflexivity.
Defined.

End ExpiryDate.

Section ExpiryDateFormat.
Import Js Validation Spec Examples.

Lemma split_go_no_separator (sep : ascii) (s : string) (cur : list ascii) :
  Forall (fun c => c <> sep) (list_ascii_of_string s) ->
  split_go sep s cur
  = [string_of_list_ascii (rev cur ++ list_ascii_of_string s)].
Proof.
  revert cur; induction s as [|c s IH]; intros cur H; cbn [split_go list_ascii_of_string].
  - rewrite app_nil_r. reflexivity.
  - apply Forall_cons in H as [Hc Hs].
    destruct (Ascii.eqb_spec c sep) as [->|_]; [contradiction|].
    rewrite IH by exact Hs. cbn [rev]. rewrite <- app_assoc. reflexivity.
Qed.

(** A string without "/" has a single piece, so [year] is [undefined]. *)
Lemma expiryYear_no_separator (s : string) :
  Forall (fun c => c <> "/"%char) (list_ascii_of_string s) ->
  expiryYear s = NaN.
Proof.
  intros H. unfold expiryYear, split. rewrite split_go_no_separator by exact H.
  reflexivity.
Qed.

Lemma validateExpiryDate_year_NaN (rt : Runtime) (s : string) :
  expiryYear s = NaN -> validateExpiryDate rt s = true.
Proof. intros H. unfold validateExpiryDate. rewrite H. reflexivity. Qed.

(** C10, as stated, fails: "ab/20" has a month part that is not a number,
    yet in November 2026 it is rejected, because its year alone decides. *)
Lemma validateExpiryDate_month_NaN_rejected :
  expiryMonth "ab/20" = NaN
  /\ validateExpiryDate november_2026 "ab/20" = false.
Proof. split; reflexivity. Qed.

(** C10, amended: when parsing yields no numeric year (the string has no
    "/", or the part after the first "/" does not start with a number),
    [validateExpiryDate] returns true whatever the month part is: both
    comparisons of the year are false. When only the month is not a number,
    the year decides alone. *)
Theorem validateExpiryDate_accepts_year_NaN (rt : Runtime) (s : string) :
  (Forall (fun c => c <> "/"%char) (list_ascii_of_string s) \/ expiryYear s = NaN ->
   validateExpiryDate rt s = true)
  /\ (forall year : Z,
        expiryMonth s = NaN -> expiryYear s = Some year ->
        validateExpiryDate rt s
        = negb (year <? Z.rem (getFullYear (currentDate rt)) 100)).
Proof.
  split.
  - intros [H | H]; apply validateExpiryDate_year_NaN;
      [apply expiryYear_no_separator|]; exact H.
  - intros year Hm Hy. unfold validateExpiryDate. rewrite Hm, Hy. cbn.
    rewrite andb_false_r, orb_false_r.
    destruct (year <? Z.rem (getFullYear (currentDate rt)) 100); reflexivity.
Qed.

Lemma validateExpiryDate_accepts_year_NaN_witness :
  validateExpiryDate november_2026 "1225" = true
  /\ validateExpiryDate november_2026 "ab/cd" = true.
Proof.
  split.
  - apply (proj1 (validateExpiryDate_accepts_year_NaN november_2026 "1225")). left.
    repeat constructor; discriminate.
  - apply (proj1 (validateExpiryDate_accepts_year_NaN november_2026 "ab/cd")). right.
    reflexivity.
Defined.

End ExpiryDateFormat.

(** ** Properties of the limiters *)

Section Limiters.
Import Js Http RateLimit.

Lemma increment_total (w t : Z) (ip : string) (store : gmap string Window) :
  snd (increment w t ip store) = hits store ip t + 1.
Proof.
  unfold increment, hits. destruct (store !! ip) as [win|]; [|reflexivity].
  destruct (t <? resetTime win); reflexivity.
Qed.

Lemma increment_hits (w t : Z) (ip : string) (store : gmap string Window) :
  0 < w ->
  hits (fst (increment w t ip store)) ip t = hits store ip t + 1.
Proof.
  intros Hw. unfold increment, hits.
  destruct (store !! ip) as [win|] eqn:E.
  - destruct (t <? resetTime win) eqn:Ht; cbn [fst]; rewrite lookup_insert_eq; cbn.
    + rewrite Ht. reflexivity.
    + replace (t <? t + w) with true by (symmetry; apply Z.ltb_lt; lia). reflexivity.
  - cbn [fst]. rewrite lookup_insert_eq. cbn.
    replace (t <? t + w) with true by (symmetry; apply Z.ltb_lt; lia). reflexivity.
Qed.

Lemma increment_other (w t : Z) (ip other : string) (store : gmap string Window) (t' : Z) :
  other <> ip ->
  hits (fst (increment w t ip store)) other t' = hits store other t'.
Proof.
  intros Hne. unfold increment, hits.
  destruct (store !! ip) as [win|]; [destruct (t <? resetTime win)|];
    cbn [fst]; rewrite lookup_insert_ne by congruence; reflexivity.
Qed.

(** The limiter in terms of the count of the open window. *)
Lemma rateLimit_hits (o : Options) (rt : Runtime) (ip : string)
    (store : gmap string Window) :
  rateLimit o rt ip store
  = (fst (increment (windowMs o) (now rt) ip store),
     if max o <? hits store ip (now rt) + 1
     then (handler o (statusCode o) (message o), Halt)
     else ([], Continue)).
Proof.
  unfold rateLimit.
  pose proof (increment_total (windowMs o) (now rt) ip store) as H.
  destruct (increment (windowMs o) (now rt) ip store) as [store' total].
  cbn [fst snd] in *. rewrite <- H. destruct (max o <? total); reflexivity.
Qed.

End Limiters.

(** ** Properties of the request validator *)

Section RequestValidator.
Import Js Http Validation Examples.

Lemma includes_string (list : list string) (v : value) :
  includes list v = true -> exists s, v = VStr s /\ In s list.
Proof.
  unfold includes. intros H. apply existsb_exists in H as (s & Hin & Hs).
  destruct v; try discriminate. cbn in Hs. apply String.eqb_eq in Hs. subst.
  eauto.
Qed.

(** What a body that passes validation looks like. *)
Lemma validatePayment_Continue (rt : Runtime) (body : value) (events : list Event) :
  validatePayment rt body = (events, Continue) ->
  events = []
  /\ exists (amount : float) (currency paymentMethod : string) (cardDetails : value),
      get body "amount" = Some (VNum amount)
      /\ PrimFloat.leb amount 0 = false
      /\ get body "currency" = Some (VStr currency)
      /\ In currency validCurrencies
      /\ get body "paymentMethod" = Some (VStr paymentMethod)
      /\ In paymentMethod validPaymentMethods
      /\ get body "cardDetails" = Some cardDetails.
Proof.
  unfold validatePayment, reject.
  destruct (get body "amount") as [amount|]; [|discriminate].
  destruct (get body "currency") as [currency|]; [|discriminate].
  destruct (get body "paymentMethod") as [paymentMethod|]; [|discriminate].
  destruct (get body "cardDetails") as [cardDetails|]; [|discriminate].
  destruct (negb (truthy amount) || negb (truthy currency)
            || negb (truthy paymentMethod)); [discriminate|].
  destruct amount as [| | |amount| | |]; try discriminate.
  destruct (PrimFloat.leb amount 0) eqn:Hpos; [discriminate|].
  destruct (includes validCurrencies currency) eqn:Hcur; [|discriminate].
  destruct (includes validPaymentMethods paymentMethod) eqn:Hpm; [|discriminate].
  apply includes_string in Hcur as (cur & -> & Hcur).
  apply includes_string in Hpm as (pm & -> & Hpm).
  cbn [negb].
  intros H.
  assert (events = []) as ->.
  { destruct (is_string "credit_card" (VStr pm)); [|congruence].
    destruct (negb (truthy cardDetails)); [discriminate|].
    revert H. unfold validateCard, reject.
    repeat match goal with
           | |- context [match ?x with _ => _ end] => destruct x; try discriminate
           end; congruence. }
  split; [reflexivity|]. exists amount, cur, pm, cardDetails. auto 10.
Qed.

(** Every rejection of the validator is a warning in the log and a 400
    response; otherwise it writes nothing. *)
Lemma validatePayment_shape (rt : Runtime) (body : value) :
  match snd (validatePayment rt body) with
  | Halt => exists log error : string,
      fst (validatePayment rt body) = [Log Warn log; Respond 400 (BResult false error)]
  | _ => fst (validatePayment rt body) = []
  end.
Proof.
  unfold validatePayment, validateCard, reject.
  repeat match goal with
         | |- context [get ?v ?k] => destruct (get v k)
         | |- context [if ?c then _ else _] => destruct c
         | |- context [match ?x with VUndefined => _ | _ => _ end] => destruct x
         end; cbn [fst snd]; eauto.
Qed.

(** C5: where the code departs from the claim. With an amount of zero the
    three fields are present and the amount is not a positive number, but
    [!amount] holds, so the presence check answers, with its own message,
    and the amount check is not reached. *)
Theorem validatePayment_zero_amount_reported_missing :
  validatePayment november_2026
    (VObj [("amount", VNum 0); ("currency", VStr "USD");
           ("paymentMethod", VStr "credit_card")])
  = ([Log Warn "Missing required payment fields";
      Respond 400
        (BResult false
           "Missing required fields: amount, currency, and paymentMethod are required")],
     Halt).
Proof. reflexivity. Qed.

(** When the three fields are truthy and the amount fails [typeof amount
    !== 'number' || amount <= 0], the answer is the one of the amount
    check. *)
Lemma validatePayment_invalid_amount (rt : Runtime) (body amount currency
    paymentMethod cardDetails : value) :
  get body "amount" = Some amount ->
  get body "currency" = Some currency ->
  get body "paymentMethod" = Some paymentMethod ->
  get body "cardDetails" = Some cardDetails ->
  truthy amount = true -> truthy currency = true -> truthy paymentMethod = true ->
  match amount with VNum n => PrimFloat.leb n 0 | _ => true end = true ->
  validatePayment rt body
  = ([Log Warn "Invalid amount";
      Respond 400 (BResult false "Amount must be a positive number")], Halt).
Proof.
  intros Ha Hc Hp Hd Ta Tc Tp Hbad. unfold validatePayment.
  rewrite Ha, Hc, Hp, Hd, Ta, Tc, Tp. cbn [negb orb]. rewrite Hbad. reflexivity.
Qed.

End RequestValidator.

(** ** Properties of the application *)

Section Application.
Import Js Http RateLimit StripeService App Examples.

(** Every request is answered within the embedding: the one operation it
    leaves out, the product of a non-number amount, is never reached. *)
Lemma post_try_total (rt : Runtime) (gw : Gateway) (body : value) :
  snd (Validation.validatePayment rt body) = Continue ->
  is_Some (Payments.post_try gw body).
Proof.
  intros H. destruct (Validation.validatePayment rt body) as [events flow] eqn:E.
  cbn in H. subst flow.
  apply validatePayment_Continue in E
    as (_ & a & cur & pm & card & Ha & _ & Hc & _ & _ & _ & Hd).
  unfold Payments.post_try. rewrite Ha, Hc, Hd.
  destruct (Payments.card_params card) as [e|c]; [eauto|].
  destruct (paymentMethods_create gw c) as [e|id]; [eauto|].
  unfold createPaymentIntent.
  destruct (paymentIntents_create gw _) as [e|pi]; eauto.
Qed.

(** The [catch] of the POST handler in terms of the count of failures. *)
Lemma post_failure (rt : Runtime) (gw : Gateway) (ip : string)
    (failed : gmap string Window) (body : value) (events : list Event) (error : Err) :
  Payments.post_try gw body = Some (events, Some error) ->
  Payments.post rt gw ip failed body
  = Some (fst (increment (windowMs failedPaymentLimiter) (now rt) ip failed),
          (events ++ [Log Error "Payment processing failed"]
           ++ (if 5 <=? hits failed ip (now rt)
               then [Log Warn "Failed payment rate limit exceeded";
                     Respond 429
                       (BResult false
                          "Too many failed payment attempts, please try again later")]
               else []),
           Raise error)).
Proof.
  intros H. unfold Payments.post. rewrite H, rateLimit_hits.
  cbn [max failedPaymentLimiter].
  destruct (Z.leb_spec 5 (hits failed ip (now rt))).
  - replace (5 <? _) with true by (symmetry; apply Z.ltb_lt; lia). reflexivity.
  - replace (5 <? _) with false by (symmetry; apply Z.ltb_ge; lia). reflexivity.
Qed.

Lemma app_total (rt : Runtime) (gw : Gateway) (st : Stores) (req : Request) :
  is_Some (app rt gw st req).
Proof.
  unfold app. rewrite rateLimit_hits.
  destruct (max limiter <? _); [eauto|].
  destruct (endpoint req) as [route|]; [|eauto].
  unfold paymentRoutes. rewrite rateLimit_hits.
  destruct (max paymentLimiter <? _); [eauto|].
  destruct route as [body|id]; [|eauto].
  destruct (Validation.validatePayment rt body) as [events flow] eqn:E.
  destruct flow; [|eauto|eauto].
  destruct (post_try_total rt gw body) as [[evs res] Hres]; [rewrite E; reflexivity|].
  unfold Payments.post. cbn [failed]. rewrite Hres.
  destruct res as [error|]; [|eauto].
  rewrite rateLimit_hits. destruct (max failedPaymentLimiter <? _); eauto.
Qed.

(** C4, as stated, fails: on a fresh server the 101st request of a client
    to the payment routes is answered by the limiter of the application,
    which comes first, with the package's plain-text message and not with
    the message of the payment limiter. *)
Lemma request_101_answered_by_application_limiter :
  match stores_after fresh (repeat (november_2026, echo_gateway, card_payment 100) 100) with
  | Some st =>
      option_map (fun r => response_of (snd r))
        (app november_2026 echo_gateway st (card_payment 100))
      = Some (Some (429, BText "Too many requests, please try again later."))
  | None => False
  end
  /\ BText "Too many requests, please try again later." <> message paymentLimiter.
Proof. split; [vm_compute; reflexivity|discriminate]. Qed.

Lemma app_general (rt : Runtime) (gw : Gateway) (st st' : Stores)
    (req : Request) (events : list Event) :
  app rt gw st req = Some (st', events) ->
  general st' = fst (increment (windowMs limiter) (now rt) (ip req) (general st)).
Proof.
  unfold app. rewrite rateLimit_hits.
  destruct (max limiter <? _); [intros [= <- _]; reflexivity|].
  destruct (endpoint req) as [route|]; [|intros [= <- _]; reflexivity].
  unfold paymentRoutes. rewrite rateLimit_hits.
  destruct (max paymentLimiter <? _); [intros [= <- _]; reflexivity|].
  destruct route as [body|id]; [|intros [= <- _]; reflexivity].
  destruct (Validation.validatePayment rt body) as [evs []];
    try (intros [= <- _]; reflexivity).
  destruct (Payments.post _ _ _ _ _) as [[failed' result]|]; [|discriminate].
  intros [= <- _]; reflexivity.
Qed.

(** Every request is counted once by the limiter of the application. *)
Lemma app_counts_request (rt : Runtime) (gw : Gateway) (st st' : Stores)
    (req : Request) (events : list Event) :
  app rt gw st req = Some (st', events) ->
  hits (general st') (ip req) (now rt) = hits (general st) (ip req) (now rt) + 1.
Proof.
  intros H. rewrite (app_general _ _ _ _ _ _ H). apply increment_hits. reflexivity.
Qed.

Lemma counted_hits (client : string) (start n t : Z) (store : gmap string Window) :
  counted client start n store -> t < start + 15 * 60 * 1000 ->
  hits store client t = n.
Proof.
  intros [[-> Hnone] | (reset & Hsome & Hreset)] Ht; unfold hits.
  - rewrite Hnone. reflexivity.
  - rewrite Hsome. cbn.
    replace (t <? reset) with true by (symmetry; apply Z.ltb_lt; lia). reflexivity.
Qed.

Lemma increment_counted (client : string) (start n t : Z)
    (store : gmap string Window) :
  counted client start n store -> start <= t < start + 15 * 60 * 1000 ->
  counted client start (n + 1)
    (fst (increment (windowMs limiter) t client store)).
Proof.
  intros [[-> Hnone] | (reset & Hsome & Hreset)] Ht; unfold increment; right.
  - rewrite Hnone. cbn [fst]. exists (t + windowMs limiter).
    rewrite lookup_insert_eq. split; [reflexivity|]. cbn. lia.
  - rewrite Hsome. cbn [resetTime totalHits].
    replace (t <? reset) with true by (symmetry; apply Z.ltb_lt; lia).
    cbn [fst]. exists reset. rewrite lookup_insert_eq. split; [reflexivity|lia].
Qed.

(** After [length requests] requests of a client within the window, the
    limiter of the application has counted them all. *)
Lemma stores_after_counted (client : string) (start : Z)
    (requests : list (Runtime * Gateway * Request)) (st : Stores) (n : Z) :
  counted client start n (general st) ->
  Forall (from_client client start) requests ->
  exists st',
    stores_after st requests = Some st'
    /\ counted client start (n + Z.of_nat (length requests)) (general st').
Proof.
  revert st n; induction requests as [|[[rt gw] req] rest IH]; intros st n Hn Hall.
  - exists st. split; [reflexivity|]. cbn. rewrite Z.add_0_r. exact Hn.
  - apply Forall_cons in Hall as [[Hip Ht] Hrest].
    destruct (app_total rt gw st req) as [[st1 events] Happ].
    cbn [stores_after]. rewrite Happ.
    destruct (IH st1 (n + 1)) as (st' & Hafter & Hcount); [|exact Hrest|].
    + rewrite (app_general _ _ _ _ _ _ Happ), Hip.
      apply increment_counted; assumption.
    + exists st'. split; [exact Hafter|].
      replace (n + Z.of_nat (length ((rt, gw, req) :: rest)))
        with (n + 1 + Z.of_nat (length rest)) by (cbn [length]; lia).
      exact Hcount.
Qed.

Lemma over_limit_response (rt : Runtime) (gw : Gateway) (st : Stores)
    (req : Request) (route : PaymentRoute) :
  endpoint req = PaymentsApi route ->
  100 <= hits (general st) (ip req) (now rt)
  \/ 100 <= hits (payments st) (ip req) (now rt) ->
  exists st',
    app rt gw st req
    = Some (st',
            if 100 <=? hits (general st) (ip req) (now rt)
            then [Respond 429 (BText "Too many requests, please try again later.")]
            else [Log Warn "Rate limit exceeded";
                  Respond 429
                    (BResult false
                       "Too many payment requests, please try again later")]).
Proof.
  intros Hroute Hover. unfold app. rewrite rateLimit_hits. cbn [max limiter].
  destruct (Z.leb_spec 100 (hits (general st) (ip req) (now rt))) as [Hg|Hg].
  - replace (100 <? _) with true by (symmetry; apply Z.ltb_lt; lia).
    eexists. reflexivity.
  - replace (100 <? _) with false by (symmetry; apply Z.ltb_ge; lia).
    rewrite Hroute. unfold paymentRoutes. rewrite rateLimit_hits.
    cbn [max paymentLimiter payments].
    replace (100 <? _) with true by (symmetry; apply Z.ltb_lt; lia).
    eexists. reflexivity.
Qed.

(** C4, amended: a request to the payment routes that is the 101st or a
    later one of its client in the open 15-minute window of a limiter is
    answered with status 429 before validation and before any gateway call:
    by the limiter of the application (same window and limit, first in the
    chain, plain-text message) when its own count has reached 100, and
    otherwise by the payment limiter with the general tier's message. On a
    server that starts fresh, the 101st request of a client within 15
    minutes is answered by the limiter of the application. *)
Theorem payment_request_over_limit (rt : Runtime) (gw : Gateway)
    (req : Request) (route : PaymentRoute) :
  endpoint req = PaymentsApi route ->
  (forall st : Stores,
      100 <= hits (general st) (ip req) (now rt)
      \/ 100 <= hits (payments st) (ip req) (now rt) ->
      exists st',
        app rt gw st req
        = Some (st',
                if 100 <=? hits (general st) (ip req) (now rt)
                then [Respond 429 (BText "Too many requests, please try again later.")]
                else [Log Warn "Rate limit exceeded";
                      Respond 429
                        (BResult false
                           "Too many payment requests, please try again later")]))
  /\ (forall (start : Z) (earlier : list (Runtime * Gateway * Request)),
        length earlier = 100%nat ->
        Forall (from_client (ip req) start) earlier ->
        from_client (ip req) start (rt, gw, req) ->
        exists st st',
          stores_after fresh earlier = Some st
          /\ app rt gw st req
             = Some (st', [Respond 429
                             (BText "Too many requests, please try again later.")])).
Proof.
  intros Hroute. split.
  - intros st. apply (over_limit_response rt gw st req route Hroute).
  - intros start earlier Hlen Hall [_ Ht].
    destruct (stores_after_counted (ip req) start earlier fresh 0)
      as (st & Hafter & Hcount); [left; split; reflexivity|exact Hall|].
    rewrite Hlen in Hcount.
    assert (Hhits : hits (general st) (ip req) (now rt) = 100)
      by (apply (counted_hits _ start); [exact Hcount|lia]).
    destruct (over_limit_response rt gw st req route Hroute) as [st' Happ];
      [left; lia|].
    rewrite Hhits in Happ. exists st, st'. split; [exact Hafter|exact Happ].
Qed.

Lemma payment_request_over_limit_witness :
  exists st',
    app november_2026 echo_gateway busy (card_payment 100)
    = Some (st', [Respond 429 (BText "Too many requests, please try again later.")]).
Proof.
  apply (proj1 (payment_request_over_limit november_2026 echo_gateway
                  (card_payment 100) (Post (card_body 100)) eq_refl) busy).
  left. apply Z.leb_le. vm_compute. reflexivity.
Defined.

End Application.

(** ** Failed payments *)

Section FailedPayments.
Import Js Http RateLimit StripeService App Examples.

Lemma response_of_app (l1 l2 : list Event) :
  response_of (l1 ++ l2)
  = match response_of l1 with
    | Some r => Some r
    | None => response_of l2
    end.
Proof.
  induction l1 as [|e l1 IH]; [reflexivity|].
  destruct e; cbn [app response_of]; auto.
Qed.

Lemma gateway_calls_app (l1 l2 : list Event) :
  gateway_calls (l1 ++ l2) = gateway_calls l1 ++ gateway_calls l2.
Proof. apply List.filter_app. Qed.

(** A validated POST request whose limiters let it through reaches the
    handler. *)
Lemma app_post_validated (rt : Runtime) (gw : Gateway) (st : Stores)
    (req : Request) (body : value) :
  endpoint req = PaymentsApi (Post body) ->
  hits (general st) (ip req) (now rt) < 100 ->
  hits (payments st) (ip req) (now rt) < 100 ->
  snd (Validation.validatePayment rt body) = Continue ->
  app rt gw st req
  = match Payments.post rt gw (ip req) (failed st) body with
    | Some (failed', result) =>
        Some ({| general := fst (increment (windowMs limiter) (now rt) (ip req) (general st));
                 payments := fst (increment (windowMs paymentLimiter) (now rt) (ip req)
                                    (payments st));
                 failed := failed' |},
              finish rt req result)
    | None => None
    end.
Proof.
  intros Hroute Hg Hp Hv. unfold app. rewrite rateLimit_hits. cbn [max limiter].
  replace (100 <? _) with false by (symmetry; apply Z.ltb_ge; lia).
  rewrite Hroute. unfold paymentRoutes. rewrite rateLimit_hits.
  cbn [max paymentLimiter payments general failed].
  replace (100 <? _) with false by (symmetry; apply Z.ltb_ge; lia).
  destruct (Validation.validatePayment rt body) as [events flow].
  cbn in Hv. subst flow.
  destruct (Payments.post rt gw (ip req) (failed st) body) as [[failed' result]|];
    reflexivity.
Qed.

(** C1, as stated, fails: a POST rejected by the validator is answered
    with 400 by the validator itself; the failed-attempt counter of the
    client stays at zero and the error handler is not involved. *)
Lemma validation_rejection_not_counted :
  option_map (fun r => (hits (failed (fst r)) "203.0.113.7" (now november_2026), snd r))
    (app november_2026 echo_gateway fresh (post_payment negative_amount_body))
  = Some (0, [Log Warn "Invalid amount";
              Respond 400 (BResult false "Amount must be a positive number")]).
Proof. vm_compute. reflexivity. Qed.

Lemma app_post_rejected (rt : Runtime) (gw : Gateway) (st : Stores)
    (req : Request) (body : value) :
  endpoint req = PaymentsApi (Post body) ->
  hits (general st) (ip req) (now rt) < 100 ->
  hits (payments st) (ip req) (now rt) < 100 ->
  snd (Validation.validatePayment rt body) = Halt ->
  exists st',
    app rt gw st req = Some (st', fst (Validation.validatePayment rt body))
    /\ failed st' = failed st.
Proof.
  intros Hroute Hg Hp Hv. unfold app. rewrite rateLimit_hits. cbn [max limiter].
  replace (100 <? _) with false by (symmetry; apply Z.ltb_ge; lia).
  rewrite Hroute. unfold paymentRoutes. rewrite rateLimit_hits.
  cbn [max paymentLimiter payments general failed].
  replace (100 <? _) with false by (symmetry; apply Z.ltb_ge; lia).
  destruct (Validation.validatePayment rt body) as [events flow].
  cbn in Hv. subst flow. eexists. split; reflexivity.
Qed.

(** C1, amended: for every POST /payments request that passes validation
    and then fails in the handler (the gateway rejects it, or the handler
    throws), the failed-attempt limiter (60 minutes, limit 5) is run for the
    client, which raises its count by one, before the error is passed to
    the error handler. A request rejected by the validator is answered by
    the validator and leaves the failed-attempt counters as they were. *)
Theorem handler_failure_counted (rt : Runtime) (gw : Gateway) (st : Stores)
    (req : Request) (body : value) :
  endpoint req = PaymentsApi (Post body) ->
  hits (general st) (ip req) (now rt) < 100 ->
  hits (payments st) (ip req) (now rt) < 100 ->
  windowMs failedPaymentLimiter = 60 * 60 * 1000
  /\ max failedPaymentLimiter = 5
  /\ (forall (events : list Event) (error : Err),
        snd (Validation.validatePayment rt body) = Continue ->
        Payments.post_try gw body = Some (events, Some error) ->
        exists st',
          app rt gw st req
          = Some (st',
                  events ++ [Log Error "Payment processing failed"]
                  ++ (if 5 <=? hits (failed st) (ip req) (now rt)
                      then [Log Warn "Failed payment rate limit exceeded";
                            Respond 429
                              (BResult false
                                 "Too many failed payment attempts, please try again later")]
                      else [])
                  ++ ErrorHandler.errorHandler rt (path req) error)
          /\ hits (failed st') (ip req) (now rt)
             = hits (failed st) (ip req) (now rt) + 1)
  /\ (snd (Validation.validatePayment rt body) = Halt ->
      exists st',
        app rt gw st req = Some (st', fst (Validation.validatePayment rt body))
        /\ failed st' = failed st).
Proof.
  intros Hroute Hg Hp. split; [reflexivity|]. split; [reflexivity|]. split.
  - intros events error Hv Htry.
    rewrite (app_post_validated rt gw st req body Hroute Hg Hp Hv).
    rewrite (post_failure rt gw (ip req) (failed st) body events error Htry).
    eexists. split.
    + cbn [finish]. rewrite <- !app_assoc. reflexivity.
    + cbn [failed]. apply increment_hits. reflexivity.
  - apply app_post_rejected; assumption.
Qed.

Lemma handler_failure_counted_witness :
  exists st',
    app november_2026 declining_gateway fresh (card_payment 100)
    = Some (st',
            [Log Info "Processing payment";
             Call (PaymentMethodsCreate
                     {| number := VStr "4242424242424242";
                        exp_month := Some 12;
                        exp_year := Some 30;
                        cvc := VStr "123" |});
             Log Error "Payment processing failed";
             Log Error "Your card was declined.";
             Respond 500 (BError "Your card was declined." 500 "/api/v1/payments")])
    /\ hits (failed st') "203.0.113.7" (now november_2026) = 1.
Proof.
  refine (proj1 (proj2 (proj2
    (handler_failure_counted november_2026 declining_gateway fresh
       (card_payment 100) (card_body 100) eq_refl _ _)))
    [Log Info "Processing payment";
     Call (PaymentMethodsCreate
             {| number := VStr "4242424242424242";
                exp_month := Some 12;
                exp_year := Some 30;
                cvc := VStr "123" |})]
    {| Http.name := "Error"; Http.message := "Your card was declined.";
       Http.status := None |} _ _).
  - vm_compute. reflexivity.
  - vm_compute. reflexivity.
  - vm_compute. reflexivity.
  - vm_compute. reflexivity.
Defined.

(** C9: a request that passes validation with the payment method
    bank_transfer and without card details makes the POST handler throw
    when it reads [cardDetails.cardNumber], before any call of the gateway;
    the error reaches the error handler, which resolves it to status 500,
    and that is the response as long as the failed-attempt limiter has not
    tripped. No bank transfer is processed. *)
Theorem bank_transfer_never_processed (rt : Runtime) (gw : Gateway) (st : Stores)
    (req : Request) (body : value) :
  endpoint req = PaymentsApi (Post body) ->
  hits (general st) (ip req) (now rt) < 100 ->
  hits (payments st) (ip req) (now rt) < 100 ->
  snd (Validation.validatePayment rt body) = Continue ->
  get body "paymentMethod" = Some (VStr "bank_transfer") ->
  get body "cardDetails" = Some VUndefined ->
  let error := TypeError "Cannot read properties of undefined (reading 'cardNumber')" in
  Payments.post_try gw body = Some ([Log Info "Processing payment"], Some error)
  /\ fst (ErrorHandler.resolve rt error) = 500
  /\ exists st' before,
      app rt gw st req
      = Some (st', before ++ ErrorHandler.errorHandler rt (path req) error)
      /\ gateway_calls (before ++ ErrorHandler.errorHandler rt (path req) error) = []
      /\ (hits (failed st) (ip req) (now rt) < 5 ->
          response_of (before ++ ErrorHandler.errorHandler rt (path req) error)
          = Some (500, BError (snd (ErrorHandler.resolve rt error)) 500 (path req))).
Proof.
  intros Hroute Hg Hp Hv Hpm Hcard error.
  assert (Htry : Payments.post_try gw body
                 = Some ([Log Info "Processing payment"], Some error)).
  { destruct (Validation.validatePayment rt body) as [events flow] eqn:E.
    cbn in Hv. subst flow.
    apply validatePayment_Continue in E
      as (_ & a & cur & pm & card & Ha & _ & Hc & _ & _ & _ & _).
    unfold Payments.post_try. rewrite Ha, Hc, Hcard. reflexivity. }
  assert (Hstatus : fst (ErrorHandler.resolve rt error) = 500).
  { unfold ErrorHandler.resolve. cbn.
    destruct (ErrorHandler.is_production rt); reflexivity. }
  split; [exact Htry|]. split; [exact Hstatus|].
  rewrite (app_post_validated rt gw st req body Hroute Hg Hp Hv).
  rewrite (post_failure rt gw (ip req) (failed st) body _ error Htry).
  eexists. eexists. split; [cbn [finish]; reflexivity|]. split.
  - rewrite !gateway_calls_app.
    destruct (5 <=? hits (failed st) (ip req) (now rt)); reflexivity.
  - intros Hf.
    replace (5 <=? _) with false by (symmetry; apply Z.leb_gt; lia).
    cbn [app response_of]. unfold ErrorHandler.errorHandler.
    destruct (ErrorHandler.resolve rt error) as [status message].
    cbn in Hstatus. subst status. reflexivity.
Qed.

Lemma bank_transfer_never_processed_witness :
  let error := TypeError "Cannot read properties of undefined (reading 'cardNumber')" in
  Payments.post_try echo_gateway bank_transfer_body
  = Some ([Log Info "Processing payment"], Some error)
  /\ fst (ErrorHandler.resolve november_2026 error) = 500
  /\ exists st' before,
      app november_2026 echo_gateway fresh (post_payment bank_transfer_body)
      = Some (st', before ++ ErrorHandler.errorHandler november_2026 "/api/v1/payments" error)
      /\ gateway_calls
           (before ++ ErrorHandler.errorHandler november_2026 "/api/v1/payments" error) = []
      /\ (hits ∅ "203.0.113.7" (now november_2026) < 5 ->
          response_of
            (before ++ ErrorHandler.errorHandler november_2026 "/api/v1/payments" error)
          = Some (500,
                  BError (snd (ErrorHandler.resolve november_2026 error)) 500
                    "/api/v1/payments")).
Proof.
  apply (bank_transfer_never_processed november_2026 echo_gateway fresh
           (post_payment bank_transfer_body) bank_transfer_body eq_refl).
  - vm_compute. reflexivity.
  - vm_compute. reflexivity.
  - vm_compute. reflexivity.
  - reflexivity.
  - reflexivity.
Defined.

End FailedPayments.

(** ** The error handler *)

Section ErrorHandling.
Import Js Http StripeService App ErrorHandler Examples.

(** An error that is none of the three named kinds and carries no
    [status] is answered with 500, whatever its name. *)
Lemma resolve_unmapped (rt : Runtime) (err : Err) :
  error_label err = None -> status err = None -> fst (resolve rt err) = 500.
Proof.
  unfold error_label, resolve, default_status. intros Hname Hstatus.
  destruct (String.eqb (name err) "ValidationError"); [discriminate|].
  destruct (String.eqb (name err) "UnauthorizedError"); [discriminate|].
  destruct (String.eqb (name err) "ForbiddenError"); [discriminate|].
  rewrite Hstatus. cbn. destruct (is_production rt); reflexivity.
Qed.

(** C2: where the code departs from the claim. The gateway does not know
    the id and its error carries no [status]; the response is 500 with the
    gateway's message, not 404 with "Payment not found". The error handler
    has no case for the kinds NotFound and GatewayDeclined: both resolve to
    500. *)
Theorem unknown_payment_answered_500 :
  option_map (fun r => response_of (snd r))
    (app november_2026 echo_gateway fresh (get_payment "pi_unknown"))
  = Some (Some (500,
                BError "No such payment_intent: 'pi_unknown'" 500
                  "/api/v1/payments/pi_unknown"))
  /\ resolve november_2026 not_found = (500, "No such payment_intent")
  /\ resolve november_2026 gateway_declined = (500, "Your card was declined.").
Proof. repeat split; vm_compute; reflexivity. Qed.

(** C8, as stated, fails: outside production the message of an error named
    ValidationError is replaced by a fixed label. *)
Lemma validation_error_message_replaced :
  is_production november_2026 = false
  /\ response_of (errorHandler november_2026 "/api/v1/payments" validation_error)
     = Some (400, BError "Validation Error" 400 "/api/v1/payments")
  /\ "Validation Error" <> message validation_error.
Proof. repeat split; try reflexivity. discriminate. Qed.

(** C8, amended: in production an error resolved to status 500 is answered
    with the generic message "Internal Server Error". In every other case
    the message of the response is the fixed label of the kind for errors
    named ValidationError, UnauthorizedError or ForbiddenError, and
    otherwise the original message of the error, unchanged ("Internal
    Server Error" when the error has no message). *)
Theorem errorHandler_message (rt : Runtime) (path : string) (err : Err) :
  exists (status : Z) (message : string),
    response_of (errorHandler rt path err) = Some (status, BError message status path)
    /\ (is_production rt = true -> status = 500 ->
        message = "Internal Server Error")
    /\ (is_production rt = false \/ status <> 500 ->
        message = match error_label err with
                  | Some (_, label) => label
                  | None => if String.eqb (Http.message err) EmptyString
                            then "Internal Server Error"
                            else Http.message err
                  end).
Proof.
  unfold errorHandler. destruct (resolve rt err) as [status message] eqn:E.
  exists status, message. split; [reflexivity|].
  revert E. unfold resolve, error_label, default_message.
  destruct (String.eqb (name err) "ValidationError");
    [|destruct (String.eqb (name err) "UnauthorizedError");
      [|destruct (String.eqb (name err) "ForbiddenError")]];
    destruct (is_production rt); cbn [andb];
    try (intros [= <- <-]; split; [intros; try reflexivity; discriminate
                                  |intros; reflexivity]).
  all: destruct (Z.eqb_spec (default_status err) 500) as [H500|H500];
    intros [= <- <-]; split; intros; try reflexivity; try discriminate;
    try congruence.
  all: destruct H as [H|H]; [discriminate|contradiction].
Qed.

Lemma errorHandler_message_witness :
  exists (status : Z) (message : string),
    response_of (errorHandler production "/api/v1/payments" internal_error)
    = Some (status, BError message status "/api/v1/payments")
    /\ message = "Internal Server Error".
Proof.
  destruct (errorHandler_message production "/api/v1/payments" internal_error)
    as (status & message & Hresponse & Hproduction & _).
  exists status, message. split; [exact Hresponse|].
  apply Hproduction; [reflexivity|].
  vm_compute in Hresponse. congruence.
Defined.

End ErrorHandling.

(** ** Amounts *)

Section Amounts.
Import Js Http RateLimit StripeService App Spec Examples.

(** The only response of the try block is the 201 of a payment. *)
Lemma post_try_response (gw : Gateway) (body : value) (events : list Event)
    (thrown : option Err) :
  reports_amount gw ->
  Payments.post_try gw body = Some (events, thrown) ->
  match thrown with
  | Some _ => response_of events = None
  | None =>
      exists (a : float) (id status currency : string),
        get body "amount" = Some (VNum a)
        /\ response_of events = Some (201, BPayment id status (round_trip a) currency)
  end.
Proof.
  intros Hgw. unfold Payments.post_try.
  destruct (get body "amount") as [amount|]; [|intros [= <- <-]; reflexivity].
  destruct (get body "currency") as [currency|]; [|intros [= <- <-]; reflexivity].
  destruct (get body "cardDetails") as [cardDetails|]; [|intros [= <- <-]; reflexivity].
  destruct (Payments.card_params cardDetails) as [e|card]; [intros [= <- <-]; reflexivity|].
  destruct (paymentMethods_create gw card) as [e|pm]; [intros [= <- <-]; reflexivity|].
  unfold createPaymentIntent.
  destruct amount as [| | |a| | |]; try discriminate.
  destruct currency as [| | | |c| |]; try (intros [= <- <-]; reflexivity).
  destruct (paymentIntents_create gw (intent_params a c pm)) as [e|paymentIntent] eqn:E;
    intros [= <- <-]; [reflexivity|].
  exists a, (intent_id paymentIntent), (intent_status paymentIntent),
    (intent_currency paymentIntent).
  split; [reflexivity|]. cbn. unfold Payments.payment_body.
  rewrite (Hgw _ _ E). reflexivity.
Qed.

Lemma round_trip_fixes_sound (n : nat) (k0 k : Z) :
  round_trip_fixes n k0 = true ->
  k0 <= k < k0 + Z.of_nat n ->
  PrimFloat.eqb (round_trip (cents k)) (cents k) = true.
Proof.
  revert k0; induction n as [|n IH]; intros k0 Hall Hk; [lia|].
  cbn [round_trip_fixes] in Hall. apply andb_prop in Hall as [Hhere Hrest].
  destruct (Z.eq_dec k k0) as [->|Hne]; [exact Hhere|].
  apply (IH (k0 + 1)); [exact Hrest|lia].
Qed.

(** Amounts of whole cents, from 0.01 to 200.00, come back as they
    were. *)
Lemma whole_cents_preserved (k : Z) :
  1 <= k <= 20000 ->
  PrimFloat.eqb (round_trip (cents k)) (cents k) = true.
Proof.
  intros Hk. apply (round_trip_fixes_sound (Z.to_nat 20000) 1);
    [vm_compute; reflexivity|lia].
Qed.

(** C3, as stated, fails: an amount of 1.234 is accepted and comes back as
    1.23. *)
Lemma amount_not_preserved :
  option_map (fun r => response_of (snd r))
    (app november_2026 echo_gateway fresh (card_payment 1.234))
  = Some (Some (201, BPayment "pi_1" "succeeded" 1.23 "usd"))
  /\ PrimFloat.eqb 1.23 1.234 = false.
Proof. split; vm_compute; reflexivity. Qed.

(** C3, amended: for every successful POST /payments with input amount a,
    answered by a gateway that reports the minor-unit amount it was given,
    the amount of the 201 response is [Math.round(a * 100) / 100]: the
    input rounded to the nearest cent. That is the input itself for the
    amounts of whole cents from 0.01 to 200.00. *)
Theorem post_amount_rounded_to_cents (rt : Runtime) (gw : Gateway) (st st' : Stores)
    (req : Request) (body : value) (events : list Event)
    (id status currency : string) (returned : float) :
  reports_amount gw ->
  endpoint req = PaymentsApi (Post body) ->
  app rt gw st req = Some (st', events) ->
  response_of events = Some (201, BPayment id status returned currency) ->
  (exists a : float,
      get body "amount" = Some (VNum a)
      /\ returned = (Math_round (a * 100) / 100)%float)
  /\ (forall k : Z,
        1 <= k <= 20000 ->
        PrimFloat.eqb (Math_round (cents k * 100) / 100) (cents k) = true).
Proof.
  intros Hgw Hroute Happ Hresponse. split; [|exact whole_cents_preserved].
  revert Happ Hresponse. unfold app. rewrite rateLimit_hits.
  destruct (max limiter <? _); [intros [= _ <-]; discriminate|].
  rewrite Hroute. unfold paymentRoutes. rewrite rateLimit_hits.
  destruct (max paymentLimiter <? _); [intros [= _ <-]; discriminate|].
  destruct (Validation.validatePayment rt body) as [evs flow] eqn:E.
  destruct flow.
  - unfold Payments.post.
    destruct (Payments.post_try gw body) as [[tried thrown]|] eqn:Htry; [|discriminate].
    pose proof (post_try_response gw body tried thrown Hgw Htry) as Hresp.
    destruct thrown as [error|].
    + rewrite rateLimit_hits.
      destruct (max failedPaymentLimiter <? _); intros [= _ <-];
        cbn [finish]; rewrite !response_of_app, Hresp;
        unfold ErrorHandler.errorHandler;
        destruct (ErrorHandler.resolve rt error); discriminate.
    + destruct Hresp as (a & id' & status' & currency' & Ha & Hr).
      intros [= _ <-]. cbn [finish]. rewrite Hr. intros [= _ _ <- _].
      exists a. split; [exact Ha|reflexivity].
  - intros [= _ <-]. cbn [finish].
    pose proof (validatePayment_shape rt body) as Hshape. rewrite E in Hshape.
    destruct Hshape as (log & error & Hevs). cbn [fst] in Hevs. subst evs.
    discriminate.
  - intros [= _ <-]. cbn [finish].
    pose proof (validatePayment_shape rt body) as Hshape. rewrite E in Hshape.
    cbn [fst snd] in Hshape. subst evs. unfold ErrorHandler.errorHandler.
    destruct (ErrorHandler.resolve rt e); discriminate.
Qed.

Lemma post_amount_rounded_to_cents_witness :
  exists a : float,
    get (card_body 100) "amount" = Some (VNum a)
    /\ 100%float = (Math_round (a * 100) / 100)%float.
Proof.
  assert (Hserved : exists st' events,
             app november_2026 echo_gateway fresh (card_payment 100) = Some (st', events)
             /\ response_of events = Some (201, BPayment "pi_1" "succeeded" 100 "usd")).
  { eexists. eexists. split; [vm_compute; reflexivity|reflexivity]. }
  destruct Hserved as (st' & events & Happ & Hresponse).
  apply (proj1 (post_amount_rounded_to_cents november_2026 echo_gateway fresh st'
                  (card_payment 100) (card_body 100) events
                  "pi_1" "succeeded" "usd" 100
                  ltac:(intros params paymentIntent [= <-]; reflexivity)
                  eq_refl Happ Hresponse)).
Defined.

End Amounts.

(** ** Further properties of the card validators *)

Section CardValidators.
Import Js Validation Spec Examples Coverage.

Lemma append_cons (c : ascii) (a b : string) :
  String c a +:+ b = String c (a +:+ b).
Proof. reflexivity. Qed.

Lemma chars_append (a b : string) :
  list_ascii_of_string (a +:+ b) = list_ascii_of_string a ++ list_ascii_of_string b.
Proof.
  induction a as [|c a IH]; [reflexivity|].
  rewrite append_cons. cbn [list_ascii_of_string app]. rewrite IH. reflexivity.
Qed.

Lemma cleanNumber_append (a b : string) :
  cleanNumber (a +:+ b) = cleanNumber a +:+ cleanNumber b.
Proof.
  induction a as [|c a IH]; [reflexivity|].
  rewrite append_cons. cbn [cleanNumber]. rewrite IH.
  destruct (is_white_space c || Ascii.eqb c "-"); reflexivity.
Qed.

Lemma cleanNumber_separator (c : ascii) (s : string) :
  is_separator c = true -> cleanNumber (String c s) = cleanNumber s.
Proof. unfold is_separator. intros H. cbn [cleanNumber]. rewrite H. reflexivity. Qed.

Lemma cleanNumber_digit (c : ascii) (s : string) :
  is_digit c = true -> cleanNumber (String c s) = String c (cleanNumber s).
Proof.
  intros H. cbn [cleanNumber].
  replace (is_white_space c || Ascii.eqb c "-") with false; [reflexivity|].
  revert H. destruct c as [[] [] [] [] [] [] [] []]; vm_compute; congruence.
Qed.


(** A space or a dash anywhere in a card number does not change the
    verdict. *)
Theorem validateCreditCard_ignores_separator (before after : string) (c : ascii) :
  is_separator c = true ->
  validateCreditCard (before +:+ String c after)
  = validateCreditCard (before +:+ after).
Proof.
  intros Hc. unfold validateCreditCard.
  rewrite !cleanNumber_append, (cleanNumber_separator c after Hc). reflexivity.
Qed.

Lemma validateCreditCard_ignores_separator_witness :
  validateCreditCard ("4242" +:+ String "-" "424242424242")
  = validateCreditCard ("4242" +:+ "424242424242").
Proof. apply validateCreditCard_ignores_separator. reflexivity. Defined.

(** A card number made of spaces and dashes only passes the check: there
    is no digit to sum, and the empty sum is 0. *)
Theorem validateCreditCard_accepts_separators_only (s : string) :
  Forall (fun c => is_separator c = true) (list_ascii_of_string s) ->
  validateCreditCard s = true.
Proof.
  intros H. assert (Hclean : cleanNumber s = EmptyString).
  { induction s as [|c s IH]; [reflexivity|].
    cbn [list_ascii_of_string] in H. apply Forall_cons in H as [Hc Hs].
    rewrite (cleanNumber_separator c s Hc). apply IH. exact Hs. }
  unfold validateCreditCard. rewrite Hclean. reflexivity.
Qed.

Lemma validateCreditCard_accepts_separators_only_witness :
  validateCreditCard " - " = true.
Proof.
  apply validateCreditCard_accepts_separators_only.
  repeat constructor.
Defined.

Lemma sum_app (a b : list Z) :
  foldr Z.add 0 (a ++ b) = foldr Z.add 0 a + foldr Z.add 0 b.
Proof. induction a as [|x a IH]; cbn [app foldr]; lia. Qed.

(** The checksum, split at one digit: the rest does not depend on it. *)
Lemma luhn_checksum_split (left right : list Z) :
  exists rest : Z,
    forall d : Z,
      luhn_checksum (left ++ d :: right) = luhn_term (length right) d + rest.
Proof.
  exists (foldr Z.add 0 (imap luhn_term (reverse right))
          + foldr Z.add 0
              (imap (fun n => luhn_term (length (reverse right ++ [0]) + n))
                 (reverse left))).
  intros d. unfold luhn_checksum.
  rewrite reverse_app, reverse_cons, !imap_app, !sum_app.
  cbn [imap foldr]. rewrite !length_app, length_reverse, Nat.add_0_r.
  cbn [length]. lia.
Qed.

Lemma luhn_term_distinct (k : nat) (d d' : Z) :
  0 <= d <= 9 -> 0 <= d' <= 9 -> d <> d' ->
  ~ (10 | luhn_term k d - luhn_term k d').
Proof.
  intros Hd Hd' Hne [q Hq]. unfold luhn_term in Hq.
  destruct (Nat.odd k); [|lia].
  destruct (Z.ltb_spec 9 (2 * d)), (Z.ltb_spec 9 (2 * d')); lia.
Qed.

Lemma digit_value_inj (c c' : ascii) (d : Z) :
  digit_value c = Some d -> digit_value c' = Some d -> c = c'.
Proof.
  unfold digit_value, is_digit, code.
  destruct (_ && _); [|discriminate]. destruct (_ && _); [|discriminate].
  intros [= H1] [= H2].
  assert (N_of_ascii c = N_of_ascii c') by lia.
  rewrite <- (ascii_N_embedding c), <- (ascii_N_embedding c'). congruence.
Qed.

Lemma digit_value_digit (c : ascii) :
  is_digit c = true -> exists d, digit_value c = Some d /\ 0 <= d <= 9.
Proof.
  unfold digit_value. intros H. rewrite H. eexists. split; [reflexivity|].
  unfold is_digit in H. lia.
Qed.

(** The Luhn check detects every single wrong digit: replacing one digit
    of an accepted card number by another digit gives a rejected one. *)
Theorem validateCreditCard_detects_wrong_digit (before after : string) (c c' : ascii) :
  is_digit c = true -> is_digit c' = true -> c <> c' ->
  validateCreditCard (before +:+ String c after) = true ->
  validateCreditCard (before +:+ String c' after) = false.
Proof.
  intros Hc Hc' Hne. rewrite !validateCreditCard_digits.
  rewrite !cleanNumber_append, (cleanNumber_digit c after Hc),
    (cleanNumber_digit c' after Hc').
  unfold digits_of. rewrite !chars_append. cbn [list_ascii_of_string].
  destruct (mapM digit_value
              (list_ascii_of_string (cleanNumber before)
               ++ c :: list_ascii_of_string (cleanNumber after))) as [ds|] eqn:E;
    [|discriminate].
  apply mapM_Some_1, Forall2_app_inv_l in E as (left & rest & Hleft & Hrest & ->).
  apply Forall2_cons_inv_l in Hrest as (d & right & Hd & Hright & ->).
  destruct (digit_value_digit c Hc) as (d0 & Hd0 & Hrange).
  rewrite Hd0 in Hd. injection Hd as <-.
  destruct (digit_value_digit c' Hc') as (d' & Hd' & Hrange').
  assert (d0 <> d') by (intros <-; apply Hne; exact (digit_value_inj c c' d0 Hd0 Hd')).
  assert (E' : mapM digit_value
                 (list_ascii_of_string (cleanNumber before)
                  ++ c' :: list_ascii_of_string (cleanNumber after))
               = Some (left ++ d' :: right)).
  { apply mapM_Some_2, Forall2_app; [exact Hleft|].
    constructor; [exact Hd'|exact Hright]. }
  rewrite E'. unfold luhn_valid.
  destruct (luhn_checksum_split left right) as [rest Hsplit].
  rewrite !Hsplit. intros Hvalid.
  apply Z.eqb_eq in Hvalid. apply Z.eqb_neq. intros Hvalid'.
  apply (luhn_term_distinct (length right) d0 d'); try assumption.
  apply Z.mod_divide in Hvalid; [|lia]. apply Z.mod_divide in Hvalid'; [|lia].
  replace (luhn_term (length right) d0 - luhn_term (length right) d')
    with ((luhn_term (length right) d0 + rest) - (luhn_term (length right) d' + rest))
    by lia.
  apply Z.divide_sub_r; assumption.
Qed.

Lemma validateCreditCard_detects_wrong_digit_witness :
  validateCreditCard ("424242424242424" +:+ String "1" EmptyString) = false.
Proof.
  apply (validateCreditCard_detects_wrong_digit "424242424242424" EmptyString "2" "1");
    [reflexivity|reflexivity|discriminate|reflexivity].
Defined.

(** A year part of three or more digits is never before the current
    two-digit year: an expiry date written with a four-digit year is
    accepted even when it lies in the past. *)
Theorem validateExpiryDate_accepts_long_year (rt : Runtime) (expiryDate : string)
    (year : Z) :
  expiryYear expiryDate = Some year -> 100 <= year ->
  validateExpiryDate rt expiryDate = true.
Proof.
  intros Hy Hlong. unfold validateExpiryDate. rewrite Hy. cbn.
  pose proof (Z.rem_bound_abs (getFullYear (currentDate rt)) 100 ltac:(lia)) as Hb.
  replace (year <? _) with false by (symmetry; apply Z.ltb_ge; lia).
  replace (year =? _) with false by (symmetry; apply Z.eqb_neq; lia).
  reflexivity.
Qed.

Lemma validateExpiryDate_accepts_long_year_witness :
  validateExpiryDate november_2026 "12/2020" = true.
Proof.
  apply (validateExpiryDate_accepts_long_year november_2026 "12/2020" 2020);
    [reflexivity|lia].
Defined.

End CardValidators.

(** ** Further properties of the request validator *)

Section ValidatorCoverage.
Import Js Http Validation RateLimit StripeService App Examples Coverage.

(** A credit-card request that passes validation carries a card number
    that is a string passing the Luhn check, an expiry date that is a
    string passing the expiry check, and a CVV whose text is three or four
    digits: nothing else reaches the handler. *)
Theorem validated_credit_card_is_checked (rt : Runtime) (body : value)
    (events : list Event) :
  validatePayment rt body = (events, Continue) ->
  get body "paymentMethod" = Some (VStr "credit_card") ->
  exists (cardDetails cvv : value) (cardNumber expiryDate : string),
    get body "cardDetails" = Some cardDetails
    /\ get cardDetails "cardNumber" = Some (VStr cardNumber)
    /\ validateCreditCard cardNumber = true
    /\ get cardDetails "expiryDate" = Some (VStr expiryDate)
    /\ validateExpiryDate rt expiryDate = true
    /\ get cardDetails "cvv" = Some cvv
    /\ validateCVV (ToString (Number_toString rt) cvv) = true.
Proof.
  intros H Hpm. unfold validatePayment, reject in H. rewrite Hpm in H.
  destruct (get body "amount") as [amount|]; [|discriminate].
  destruct (get body "currency") as [currency|]; [|discriminate].
  destruct (get body "cardDetails") as [cardDetails|]; [|discriminate].
  destruct (negb (truthy amount) || negb (truthy currency)
            || negb (truthy (VStr "credit_card"))); [discriminate|].
  destruct (match amount with VNum n => PrimFloat.leb n 0 | _ => true end);
    [discriminate|].
  destruct (negb (includes validCurrencies currency)); [discriminate|].
  cbn [includes validPaymentMethods existsb is_string String.eqb Ascii.eqb
       Bool.eqb orb negb] in H.
  change (is_string "credit_card" (VStr "credit_card")) with true in H.
  cbv iota in H.
  destruct (negb (truthy cardDetails)); [discriminate|].
  unfold validateCard, reject in H.
  destruct (get cardDetails "cardNumber") as [cardNumber|] eqn:Gn; [|discriminate].
  destruct (get cardDetails "expiryDate") as [expiryDate|] eqn:Ge; [|discriminate].
  destruct (get cardDetails "cvv") as [cvv|] eqn:Gv; [|discriminate].
  destruct (negb (truthy cardNumber) || negb (truthy expiryDate) || negb (truthy cvv));
    [discriminate|].
  destruct cardNumber as [| | | |number| |]; try discriminate.
  destruct (validateCreditCard number) eqn:Hnumber; [|discriminate].
  destruct expiryDate as [| | | |expiry| |]; try discriminate.
  destruct (validateExpiryDate rt expiry) eqn:Hexpiry; [|discriminate].
  destruct (validateCVV (ToString (Number_toString rt) cvv)) eqn:Hcvv; [|discriminate].
  exists cardDetails, cvv, number, expiry. auto 10.
Qed.

Lemma validated_credit_card_is_checked_witness :
  exists (cardDetails cvv : value) (cardNumber expiryDate : string),
    get (card_body 100) "cardDetails" = Some cardDetails
    /\ get cardDetails "cardNumber" = Some (VStr cardNumber)
    /\ validateCreditCard cardNumber = true
    /\ get cardDetails "expiryDate" = Some (VStr expiryDate)
    /\ validateExpiryDate november_2026 expiryDate = true
    /\ get cardDetails "cvv" = Some cvv
    /\ validateCVV (ToString (Number_toString november_2026) cvv) = true.
Proof.
  apply (validated_credit_card_is_checked november_2026 (card_body 100) []);
    reflexivity.
Defined.

(** Every rejection of the validator has the same form: one warning in
    the log and one response with status 400 and [success: false]. *)
Theorem validatePayment_rejection_form (rt : Runtime) (body : value) :
  snd (validatePayment rt body) = Halt ->
  exists log error : string,
    fst (validatePayment rt body) = [Log Warn log; Respond 400 (BResult false error)].
Proof.
  intros H. pose proof (validatePayment_shape rt body) as Hshape.
  rewrite H in Hshape. exact Hshape.
Qed.

Lemma validatePayment_rejection_form_witness :
  exists log error : string,
    fst (validatePayment november_2026 negative_amount_body)
    = [Log Warn log; Respond 400 (BResult false error)].
Proof. apply validatePayment_rejection_form. reflexivity. Defined.

Lemma includes_false (list : list string) (v : value) :
  (forall s, In s list -> v <> VStr s) -> includes list v = false.
Proof.
  intros H. unfold includes. apply not_true_is_false. intros Hin.
  apply existsb_exists in Hin as (s & Hs & Heq).
  destruct v; try discriminate. cbn in Heq. apply String.eqb_eq in Heq. subst.
  exact (H s Hs eq_refl).
Qed.

(** A currency other than the strings USD, EUR and GBP, in upper case, is
    rejected with the list of the valid ones, once the presence and amount
    checks have passed; the payment method and the card are not looked
    at. *)
Theorem validatePayment_rejects_currency (rt : Runtime)
    (body currency paymentMethod cardDetails : value) (amount : float) :
  get body "amount" = Some (VNum amount) ->
  get body "currency" = Some currency ->
  get body "paymentMethod" = Some paymentMethod ->
  get body "cardDetails" = Some cardDetails ->
  truthy (VNum amount) = true -> PrimFloat.leb amount 0 = false ->
  truthy currency = true -> truthy paymentMethod = true ->
  (forall s, In s validCurrencies -> currency <> VStr s) ->
  validatePayment rt body
  = ([Log Warn "Invalid currency";
      Respond 400 (BResult false "Currency must be one of: USD, EUR, GBP")], Halt).
Proof.
  intros Ha Hc Hp Hd Ta Hpos Tc Tp Hcur. unfold validatePayment.
  rewrite Ha, Hc, Hp, Hd, Ta, Tc, Tp, Hpos, (includes_false _ _ Hcur). reflexivity.
Qed.

Lemma validatePayment_rejects_currency_witness :
  validatePayment november_2026
    (VObj [("amount", VNum 100); ("currency", VStr "usd");
           ("paymentMethod", VStr "credit_card")])
  = ([Log Warn "Invalid currency";
      Respond 400 (BResult false "Currency must be one of: USD, EUR, GBP")], Halt).
Proof.
  apply (validatePayment_rejects_currency november_2026 _ (VStr "usd")
           (VStr "credit_card") VUndefined 100); try reflexivity.
  intros s [<- | [<- | [<- | []]]]; discriminate.
Defined.

(** A validator that throws is answered by the error handler, and the
    failed-attempt counters stay as they were. *)
Lemma app_post_thrown (rt : Runtime) (gw : Gateway) (st : Stores)
    (req : Request) (body : value) (error : Err) :
  endpoint req = PaymentsApi (Post body) ->
  hits (general st) (ip req) (now rt) < 100 ->
  hits (payments st) (ip req) (now rt) < 100 ->
  validatePayment rt body = ([], Raise error) ->
  exists st',
    app rt gw st req = Some (st', ErrorHandler.errorHandler rt (path req) error)
    /\ failed st' = failed st.
Proof.
  intros Hroute Hg Hp Hv. unfold app. rewrite rateLimit_hits. cbn [max limiter].
  replace (100 <? _) with false by (symmetry; apply Z.ltb_ge; lia).
  rewrite Hroute. unfold paymentRoutes. rewrite rateLimit_hits.
  cbn [max paymentLimiter payments general failed].
  replace (100 <? _) with false by (symmetry; apply Z.ltb_ge; lia).
  rewrite Hv. eexists. split; reflexivity.
Qed.

(** A card number that is present but is not a string (a JSON number, for
    one) is not answered with 400: [replace] is missing, the validator
    throws, and the error handler answers, with status 500; the gateway is
    not called and the failure is not counted. *)
Theorem card_number_not_a_string (rt : Runtime) (gw : Gateway) (st : Stores)
    (req : Request) (body cardDetails cardNumber expiryDate cvv : value)
    (amount : float) (currency : string) :
  endpoint req = PaymentsApi (Post body) ->
  hits (general st) (ip req) (now rt) < 100 ->
  hits (payments st) (ip req) (now rt) < 100 ->
  get body "amount" = Some (VNum amount) ->
  truthy (VNum amount) = true -> PrimFloat.leb amount 0 = false ->
  get body "currency" = Some (VStr currency) -> In currency validCurrencies ->
  get body "paymentMethod" = Some (VStr "credit_card") ->
  get body "cardDetails" = Some cardDetails -> truthy cardDetails = true ->
  get cardDetails "cardNumber" = Some cardNumber -> truthy cardNumber = true ->
  get cardDetails "expiryDate" = Some expiryDate -> truthy expiryDate = true ->
  get cardDetails "cvv" = Some cvv -> truthy cvv = true ->
  (forall s, cardNumber <> VStr s) ->
  let error := TypeError "cardNumber.replace is not a function" in
  validatePayment rt body = ([], Raise error)
  /\ exists st',
      app rt gw st req = Some (st', ErrorHandler.errorHandler rt (path req) error)
      /\ failed st' = failed st
      /\ gateway_calls (ErrorHandler.errorHandler rt (path req) error) = []
      /\ exists message,
          response_of (ErrorHandler.errorHandler rt (path req) error)
          = Some (500, BError message 500 (path req)).
Proof.
  intros Hroute Hg Hp Ha Ta Hpos Hc Hcur Hpm Hd Td Hn Tn He Te Hv Tv Hns error.
  assert (Hvalidate : validatePayment rt body = ([], Raise error)).
  { assert (Tc : truthy (VStr currency) = true)
      by (destruct Hcur as [<- | [<- | [<- | []]]]; reflexivity).
    unfold validatePayment. rewrite Ha, Hc, Hpm, Hd, Ta, Tc, Hpos.
    assert (Hin : includes validCurrencies (VStr currency) = true).
    { unfold includes. apply existsb_exists. exists currency.
      split; [exact Hcur|apply String.eqb_refl]. }
    rewrite Hin. cbn -[validateCard]. rewrite Td. cbn [negb].
    unfold validateCard. rewrite Hn, He, Hv, Tn, Te, Tv. cbn [negb orb].
    destruct cardNumber as [| | | |number| |];
      try discriminate Tn; try reflexivity.
    exfalso. exact (Hns number eq_refl). }
  split; [exact Hvalidate|].
  destruct (app_post_thrown rt gw st req body error Hroute Hg Hp Hvalidate)
    as (st' & Happ & Hfailed).
  exists st'. split; [exact Happ|]. split; [exact Hfailed|].
  unfold ErrorHandler.errorHandler, ErrorHandler.resolve. cbn.
  destruct (ErrorHandler.is_production rt); cbn; split; eauto.
Qed.

Lemma card_number_not_a_string_witness :
  validatePayment november_2026 numeric_card_body
  = ([], Raise (TypeError "cardNumber.replace is not a function")).
Proof.
  refine (proj1 (card_number_not_a_string november_2026 echo_gateway fresh
                   (post_payment numeric_card_body) numeric_card_body
                   (VObj [("cardNumber", VNum 4242424242424242);
                          ("expiryDate", VStr "12/30");
                          ("cvv", VStr "123")])
                   (VNum 4242424242424242) (VStr "12/30") (VStr "123") 100 "USD"
                   eq_refl _ _ eq_refl eq_refl eq_refl eq_refl _ eq_refl eq_refl eq_refl
                   eq_refl eq_refl eq_refl eq_refl eq_refl eq_refl _)).
  - vm_compute. reflexivity.
  - vm_compute. reflexivity.
  - left. reflexivity.
  - discriminate.
Defined.

(** For the payment method bank_transfer the card details are not
    validated at all, yet the handler still reads them: a card that would
    fail every check is sent to the gateway as it is. *)
Theorem bank_transfer_card_unchecked (rt : Runtime) (gw : Gateway)
    (body cardDetails cardNumber cvv : value) (amount : float)
    (currency expiryDate : string) :
  get body "amount" = Some (VNum amount) ->
  truthy (VNum amount) = true -> PrimFloat.leb amount 0 = false ->
  get body "currency" = Some (VStr currency) -> In currency validCurrencies ->
  get body "paymentMethod" = Some (VStr "bank_transfer") ->
  get body "cardDetails" = Some cardDetails ->
  get cardDetails "cardNumber" = Some cardNumber ->
  get cardDetails "expiryDate" = Some (VStr expiryDate) ->
  get cardDetails "cvv" = Some cvv ->
  validatePayment rt body = ([], Continue)
  /\ exists (events : list Event) (thrown : option Err),
      Payments.post_try gw body = Some (events, thrown)
      /\ In (Call (PaymentMethodsCreate
                     {| number := cardNumber;
                        exp_month := parseInt_opt (nth_error (split "/" expiryDate) 0) None;
                        exp_year := parseInt_opt (nth_error (split "/" expiryDate) 1) None;
                        cvc := cvv |})) events.
Proof.
  intros Ha Ta Hpos Hc Hcur Hpm Hd Hn He Hv.
  assert (Tc : truthy (VStr currency) = true)
    by (destruct Hcur as [<- | [<- | [<- | []]]]; reflexivity).
  assert (Hin : includes validCurrencies (VStr currency) = true).
  { unfold includes. apply existsb_exists. exists currency.
    split; [exact Hcur|apply String.eqb_refl]. }
  split.
  - unfold validatePayment. rewrite Ha, Hc, Hpm, Hd, Ta, Tc, Hpos, Hin. reflexivity.
  - unfold Payments.post_try, Payments.card_params. rewrite Ha, Hc, Hd, Hn, He, Hv.
    destruct (paymentMethods_create gw _) as [e|id]; [eexists; eexists; split;
      [reflexivity|right; left; reflexivity]|].
    unfold createPaymentIntent.
    destruct (paymentIntents_create gw _);
      eexists; eexists; (split; [reflexivity|right; left; reflexivity]).
Qed.

Lemma bank_transfer_card_unchecked_witness :
  validatePayment november_2026 bank_transfer_with_card = ([], Continue)
  /\ exists (events : list Event) (thrown : option Err),
      Payments.post_try echo_gateway bank_transfer_with_card = Some (events, thrown)
      /\ In (Call (PaymentMethodsCreate
                     {| number := VStr "1234";
                        exp_month := parseInt_opt (nth_error (split "/" "01/20") 0) None;
                        exp_year := parseInt_opt (nth_error (split "/" "01/20") 1) None;
                        cvc := VStr "x" |})) events.
Proof.
  apply (bank_transfer_card_unchecked november_2026 echo_gateway
           bank_transfer_with_card
           (VObj [("cardNumber", VStr "1234"); ("expiryDate", VStr "01/20");
                  ("cvv", VStr "x")])
           (VStr "1234") (VStr "x") 100 "EUR" "01/20");
    try reflexivity.
  right. left. reflexivity.
Defined.

End ValidatorCoverage.

(** ** Further properties of the handlers and of the gateway client *)

Section HandlerCoverage.
Import Js Http Validation RateLimit StripeService App Spec Examples Coverage.

(** The POST handler calls the gateway at most twice and in a fixed order:
    it creates the payment method, and only with the id the gateway
    returned for it does it create the intent, confirmed at once and with
    redirects disabled. It completes only when both calls have
    succeeded. *)
Theorem post_try_gateway_protocol (gw : Gateway) (body : value)
    (events : list Event) (thrown : option Err) :
  Payments.post_try gw body = Some (events, thrown) ->
  match thrown with
  | None =>
      exists (card : CardParams) (id : string) (a : float) (c : string)
             (paymentIntent : PaymentIntent),
        paymentMethods_create gw card = inr id
        /\ paymentIntents_create gw (intent_params a c id) = inr paymentIntent
        /\ gateway_calls events
           = [Call (PaymentMethodsCreate card);
              Call (PaymentIntentsCreate (intent_params a c id))]
  | Some error =>
      gateway_calls events = []
      \/ (exists card : CardParams,
            gateway_calls events = [Call (PaymentMethodsCreate card)])
      \/ (exists (card : CardParams) (id : string) (a : float) (c : string),
            paymentMethods_create gw card = inr id
            /\ paymentIntents_create gw (intent_params a c id) = inl error
            /\ gateway_calls events
               = [Call (PaymentMethodsCreate card);
                  Call (PaymentIntentsCreate (intent_params a c id))])
  end
  /\ forall params : IntentParams,
      In (Call (PaymentIntentsCreate params)) events ->
      confirm params = true
      /\ automatic_payment_methods_enabled params = true
      /\ allow_redirects params = "never".
Proof.
  unfold Payments.post_try.
  destruct (get body "amount") as [amount|];
    [|intros [= <- <-]; split; [left; reflexivity|intros ? []]].
  destruct (get body "currency") as [currency|];
    [|intros [= <- <-]; split; [left; reflexivity|intros ? []]].
  destruct (get body "cardDetails") as [cardDetails|];
    [|intros [= <- <-]; split; [left; reflexivity|intros ? []]].
  destruct (Payments.card_params cardDetails) as [e|card].
  { intros [= <- <-]. split; [left; reflexivity|]. intros ? [H|[]]. discriminate H. }
  destruct (paymentMethods_create gw card) as [e|id] eqn:Hpm.
  { intros [= <- <-]. split; [right; left; eexists; reflexivity|].
    intros ? [H|[H|[]]]; discriminate H. }
  unfold createPaymentIntent.
  destruct amount as [| | |a| | |]; try discriminate.
  destruct currency as [| | | |c| |];
    try (intros [= <- <-]; split; [right; left; eexists; reflexivity|];
         intros ? [H|[H|[H|[]]]]; discriminate H).
  destruct (paymentIntents_create gw (intent_params a c id)) as [e|paymentIntent] eqn:Hpi;
    intros [= <- <-]; split.
  - right; right. exists card, id, a, c. auto.
  - intros params [H|[H|[H|[H|[]]]]]; try discriminate H.
    injection H as <-. repeat split.
  - exists card, id, a, c, paymentIntent. auto.
  - intros params [H|[H|[H|[H|[H|[H|[]]]]]]]; try discriminate H.
    injection H as <-. repeat split.
Qed.

Lemma post_try_gateway_protocol_witness :
  exists (card : CardParams) (id : string) (a : float) (c : string)
         (paymentIntent : PaymentIntent),
    paymentMethods_create echo_gateway card = inr id
    /\ paymentIntents_create echo_gateway (intent_params a c id) = inr paymentIntent
    /\ gateway_calls
         [Log Info "Processing payment";
          Call (PaymentMethodsCreate
                  {| number := VStr "4242424242424242"; exp_month := Some 12;
                     exp_year := Some 30; cvc := VStr "123" |});
          Call (PaymentIntentsCreate (intent_params 100 "USD" "pm_1"));
          Log Info "Payment intent created";
          Log Info "Payment processed successfully";
          Respond 201 (BPayment "pi_1" "succeeded" 100 "usd")]
       = [Call (PaymentMethodsCreate card);
          Call (PaymentIntentsCreate (intent_params a c id))].
Proof.
  apply (proj1 (post_try_gateway_protocol echo_gateway (card_body 100) _ None
                  ltac:(vm_compute; reflexivity))).
Defined.

Lemma toLowerCase_valid_currency (c : string) :
  In c validCurrencies -> In (toLowerCase c) gateway_currencies.
Proof.
  intros [<- | [<- | [<- | []]]]; vm_compute; auto.
Qed.

(** For a validated request the intent is created in usd, eur or gbp (the
    validated currency in lower case) and for the amount in minor units,
    [Math.round(amount * 100)]. *)
Theorem validated_intent_params (rt : Runtime) (gw : Gateway) (body : value)
    (events : list Event) (thrown : option Err) (params : IntentParams) :
  snd (validatePayment rt body) = Continue ->
  Payments.post_try gw body = Some (events, thrown) ->
  In (Call (PaymentIntentsCreate params)) events ->
  In (currency params) gateway_currencies
  /\ exists (a : float) (c : string),
      get body "amount" = Some (VNum a)
      /\ get body "currency" = Some (VStr c)
      /\ amount params = Math_round (a * 100)%float
      /\ currency params = toLowerCase c.
Proof.
  intros Hv. destruct (validatePayment rt body) as [evs flow] eqn:E.
  cbn in Hv. subst flow.
  apply validatePayment_Continue in E
    as (_ & a & c & pm & cd & Ha & _ & Hc & Hcur & _ & _ & Hd).
  unfold Payments.post_try. rewrite Ha, Hc, Hd.
  destruct (Payments.card_params cd) as [e|card].
  { intros [= <- <-] [H|[]]. discriminate H. }
  destruct (paymentMethods_create gw card) as [e|id].
  { intros [= <- <-] [H|[H|[]]]; discriminate H. }
  unfold createPaymentIntent.
  assert (Hdone : In (Call (PaymentIntentsCreate params))
                    [Call (PaymentIntentsCreate (intent_params a c id))] ->
                  In (currency params) gateway_currencies
                  /\ exists (a0 : float) (c0 : string),
                      Some (VNum a) = Some (VNum a0)
                      /\ Some (VStr c) = Some (VStr c0)
                      /\ amount params = Math_round (a0 * 100)%float
                      /\ currency params = toLowerCase c0).
  { intros [H|[]]. injection H as <-. split.
    - apply toLowerCase_valid_currency. exact Hcur.
    - exists a, c. auto. }
  destruct (paymentIntents_create gw (intent_params a c id)) as [e|paymentIntent];
    intros [= <- <-] Hin; apply Hdone.
  - destruct Hin as [H|[H|[H|[H|[]]]]]; try discriminate H. left. exact H.
  - destruct Hin as [H|[H|[H|[H|[H|[H|[]]]]]]]; try discriminate H. left. exact H.
Qed.

Lemma validated_intent_params_witness :
  In (currency (intent_params 100 "USD" "pm_1")) gateway_currencies
  /\ exists (a : float) (c : string),
      get (card_body 100) "amount" = Some (VNum a)
      /\ get (card_body 100) "currency" = Some (VStr c)
      /\ amount (intent_params 100 "USD" "pm_1") = Math_round (a * 100)%float
      /\ currency (intent_params 100 "USD" "pm_1") = toLowerCase c.
Proof.
  eapply (validated_intent_params november_2026 echo_gateway (card_body 100) _ None).
  - reflexivity.
  - vm_compute. reflexivity.
  - right. right. left. reflexivity.
Defined.



End HandlerCoverage.

(** ** Further properties of the routes and of the error handler *)

Section RouteCoverage.
Import Js Http Validation RateLimit StripeService App Spec Examples Coverage.

Lemma digit_ten_cases (d : Z) :
  0 <= d <= 9 ->
  d = 0 \/ d = 1 \/ d = 2 \/ d = 3 \/ d = 4 \/ d = 5 \/ d = 6 \/ d = 7 \/ d = 8 \/ d = 9.
Proof. lia. Qed.

Lemma parseInt_two_digits_no_radix (a b : Z) :
  0 <= a <= 9 -> 0 <= b <= 9 ->
  parseInt (two_digits a b) None = Some (10 * a + b).
Proof.
  intros Ha Hb. apply digit_ten_cases in Ha, Hb.
  repeat (destruct Ha as [Ha | Ha]); repeat (destruct Hb as [Hb | Hb]);
    subst; reflexivity.
Qed.

(** For an expiry date written MM/YY the gateway is sent the month and the
    two-digit year as numbers (30, not 2030), and the card number and the
    CVV as they were received. *)
Theorem card_params_mm_yy (cardDetails cardNumber cvv : value) (m1 m2 y1 y2 : Z) :
  0 <= m1 <= 9 -> 0 <= m2 <= 9 -> 0 <= y1 <= 9 -> 0 <= y2 <= 9 ->
  get cardDetails "cardNumber" = Some cardNumber ->
  get cardDetails "expiryDate" = Some (VStr (mm_yy m1 m2 y1 y2)) ->
  get cardDetails "cvv" = Some cvv ->
  Payments.card_params cardDetails
  = inr {| number := cardNumber;
           exp_month := Some (10 * m1 + m2);
           exp_year := Some (10 * y1 + y2);
           cvc := cvv |}.
Proof.
  intros H1 H2 H3 H4 Hn He Hc. unfold Payments.card_params.
  rewrite Hn, He, Hc, (split_mm_yy m1 m2 y1 y2 H1 H2 H3 H4).
  cbn [nth_error parseInt_opt].
  rewrite !parseInt_two_digits_no_radix by assumption. reflexivity.
Qed.

Lemma card_params_mm_yy_witness :
  Payments.card_params
    (VObj [("cardNumber", VStr "4242424242424242");
           ("expiryDate", VStr "12/30");
           ("cvv", VStr "123")])
  = inr {| number := VStr "4242424242424242";
           exp_month := Some 12;
           exp_year := Some 30;
           cvc := VStr "123" |}.
Proof.
  apply (card_params_mm_yy _ (VStr "4242424242424242") (VStr "123") 1 2 3 0);
    try lia; reflexivity.
Defined.

(** The status route asks the gateway once, never touches the
    failed-attempt counters, and answers 200 with the amount in major
    units when the gateway knows the intent; otherwise the response is the
    error handler's. *)
Theorem get_status_route (rt : Runtime) (gw : Gateway) (st : Stores)
    (req : Request) (id : string) :
  endpoint req = PaymentsApi (Get id) ->
  hits (general st) (ip req) (now rt) < 100 ->
  hits (payments st) (ip req) (now rt) < 100 ->
  exists (st' : Stores) (events : list Event),
    app rt gw st req = Some (st', events)
    /\ failed st' = failed st
    /\ gateway_calls events = [Call (PaymentIntentsRetrieve id)]
    /\ response_of events
       = match paymentIntents_retrieve gw id with
         | inr paymentIntent =>
             Some (200,
                   BPayment (intent_id paymentIntent) (intent_status paymentIntent)
                     (intent_amount paymentIntent / 100)%float
                     (intent_currency paymentIntent))
         | inl error =>
             response_of (ErrorHandler.errorHandler rt (path req) error)
         end.
Proof.
  intros Hroute Hg Hp. unfold app. rewrite rateLimit_hits. cbn [max limiter].
  replace (100 <? _) with false by (symmetry; apply Z.ltb_ge; lia).
  rewrite Hroute. unfold paymentRoutes. rewrite rateLimit_hits.
  cbn [max paymentLimiter payments general failed].
  replace (100 <? _) with false by (symmetry; apply Z.ltb_ge; lia).
  unfold Payments.get_status, retrievePaymentIntent.
  destruct (paymentIntents_retrieve gw id) as [error|paymentIntent];
    eexists; eexists; (split; [reflexivity|]); (split; [reflexivity|]).
  - cbn [finish app]. split; [|reflexivity].
    unfold ErrorHandler.errorHandler.
    destruct (ErrorHandler.resolve rt error). reflexivity.
  - split; reflexivity.
Qed.

Lemma get_status_route_witness :
  exists (st' : Stores) (events : list Event),
    app november_2026 echo_gateway fresh (get_payment "pi_unknown") = Some (st', events)
    /\ failed st' = failed fresh
    /\ gateway_calls events = [Call (PaymentIntentsRetrieve "pi_unknown")]
    /\ response_of events
       = response_of
           (ErrorHandler.errorHandler november_2026 "/api/v1/payments/pi_unknown"
              {| Http.name := "Error";
                 Http.message := "No such payment_intent: 'pi_unknown'";
                 Http.status := None |}).
Proof.
  apply (get_status_route november_2026 echo_gateway fresh
           (get_payment "pi_unknown") "pi_unknown" eq_refl);
    vm_compute; reflexivity.
Defined.

(** The health check is behind the limiter of the application only: it
    is answered 200 with the message OK and the environment ("development"
    when none is set) until its client has made 100 requests in the
    window, then 429; it never changes the counters of the payment
    limiters and never calls the gateway. *)
Theorem health_check (rt : Runtime) (gw : Gateway) (st : Stores) (req : Request) :
  endpoint req = Health ->
  exists st' : Stores,
    app rt gw st req
    = Some (st',
            if 100 <=? hits (general st) (ip req) (now rt)
            then [Respond 429 (BText "Too many requests, please try again later.")]
            else [Log Info "Health check performed";
                  Respond 200
                    (BHealth "OK"
                       match NODE_ENV rt with
                       | Some env => if String.eqb env EmptyString
                                     then "development" else env
                       | None => "development"
                       end)])
    /\ payments st' = payments st
    /\ failed st' = failed st
    /\ hits (general st') (ip req) (now rt) = hits (general st) (ip req) (now rt) + 1.
Proof.
  intros Hroute. unfold app. rewrite rateLimit_hits. cbn [max limiter].
  destruct (Z.leb_spec 100 (hits (general st) (ip req) (now rt))).
  - replace (100 <? _) with true by (symmetry; apply Z.ltb_lt; lia).
    eexists. split; [reflexivity|]. repeat split. cbn [general].
    apply increment_hits. reflexivity.
  - replace (100 <? _) with false by (symmetry; apply Z.ltb_ge; lia).
    rewrite Hroute. eexists. split; [reflexivity|]. repeat split. cbn [general].
    apply increment_hits. reflexivity.
Qed.

Lemma health_check_witness :
  exists st' : Stores,
    app november_2026 echo_gateway fresh health_request
    = Some (st', [Log Info "Health check performed";
                  Respond 200 (BHealth "OK" "development")])
    /\ payments st' = payments fresh
    /\ failed st' = failed fresh
    /\ hits (general st') "203.0.113.7" (now november_2026) = 0 + 1.
Proof.
  apply (health_check november_2026 echo_gateway fresh health_request eq_refl).
Defined.




(** In production only the status 500 hides the message: an error that
    carries another status (502, 503, ...) is answered with that status and
    with its own message. *)
Theorem production_exposes_other_statuses (rt : Runtime) (path : string)
    (err : Err) (status : Z) :
  ErrorHandler.is_production rt = true ->
  ErrorHandler.error_label err = None ->
  Http.status err = Some status -> status <> 0 -> status <> 500 ->
  Http.message err <> EmptyString ->
  response_of (ErrorHandler.errorHandler rt path err)
  = Some (status, BError (Http.message err) status path).
Proof.
  intros Hprod Hlabel Hstatus H0 H500 Hmessage.
  unfold ErrorHandler.errorHandler, ErrorHandler.resolve,
    ErrorHandler.default_status, ErrorHandler.default_message.
  revert Hlabel. unfold ErrorHandler.error_label.
  destruct (String.eqb (name err) "ValidationError"); [discriminate|].
  destruct (String.eqb (name err) "UnauthorizedError"); [discriminate|].
  destruct (String.eqb (name err) "ForbiddenError"); [discriminate|].
  intros _. rewrite Hstatus, Hprod.
  replace (status =? 0) with false by (symmetry; apply Z.eqb_neq; exact H0).
  replace (status =? 500) with false by (symmetry; apply Z.eqb_neq; exact H500).
  replace (String.eqb (Http.message err) EmptyString) with false
    by (symmetry; apply String.eqb_neq; exact Hmessage).
  reflexivity.
Qed.

Lemma production_exposes_other_statuses_witness :
  response_of (ErrorHandler.errorHandler production "/api/v1/payments" bad_gateway)
  = Some (502,
          BError "upstream 10.0.0.5:8443 refused the connection" 502
            "/api/v1/payments").
Proof.
  apply (production_exposes_other_statuses production "/api/v1/payments"
           bad_gateway 502); try reflexivity; discriminate.
Defined.

End RouteCoverage.
